(** * The Kubernetes network sidecar: [ConfigureNetwork], [newNetworkConfigList], [retry]

    A shallow embedding of the sidecar's per-container network
    configurator (package [sidecar], the file that declares [K8sNetwork])
    and the properties its specification states about it.

    Conventions of the embedding.
    - Go's [error] is a message with an optional wrapped cause; a nil
      error is [None].
    - A Go function that reads and writes process state is a function
      from the state to a result and the new state.  A run-time panic
      (nil dereference, index out of range) is an [outcome] of its own.
    - The collaborators that live outside the file (the CNI library, the
      netlink handle, the link shaping code, the routing policy code, the
      [net] package) are the fields of one record, [Env]; every theorem
      holds for every such record.
    - Debug-level logging has no effect on the state modelled here and is
      left out; warnings are kept, in order, in the [logs] of the state. *)

From Stdlib Require Import ZArith String Ascii List Lia Bool.
From Stdlib.Strings Require Import Byte.
From stdpp Require Import base option gmap strings list pretty.

Open Scope Z_scope.

(** ** Errors *)

(** An [error] value: what [Error()] prints and, for an error made with
    the [%w] verb, the error it wraps. *)
Inductive error : Type :=
  | plainError (msg : string)
  | wrapError (msg : string) (cause : error).

Definition Error (e : error) : string :=
  match e with plainError msg | wrapError msg _ => msg end.

Definition Unwrap (e : error) : option error :=
  match e with plainError _ => None | wrapError _ cause => Some cause end.

(** [errors.New(text)] *)
Definition errors_New (text : string) : error := plainError text.

(** [fmt.Errorf(prefix + "%w", err)]: the message of [err] is appended and
    [err] stays reachable through [Unwrap]. *)
Definition Errorf_w (prefix : string) (err : error) : error :=
  wrapError (prefix +:+ Error err) err.

(** [fmt.Errorf(prefix + "%s", err)]: only the message of [err] survives. *)
Definition Errorf_s (prefix : string) (err : error) : error :=
  plainError (prefix +:+ Error err).

(** ** Machine integers and durations *)

(** Go's [int] on the 64-bit targets the sidecar is built for. *)
Definition maxInt : Z := 2 ^ 63 - 1.
Definition minInt : Z := - 2 ^ 63.

(** Two's complement wrap-around of an [int] result. *)
Definition wrapInt (z : Z) : Z := (z + 2 ^ 63) mod 2 ^ 64 - 2 ^ 63.

(** [time.Duration] counts nanoseconds. *)
Definition Second : Z := 1000000000.

(** ** retry *)

Section Retry.

(** The process state [retry] runs in, with the two things [retry]
    itself does to it. *)
Context {St : Type}.
Variable Sleep : Z → St → St.
Variable Warnw : string → list (string * string) → St → St.

(** The [for i := 0; ; i++] loop of [retry], entered at index [i].
    [budget] bounds the iterations still to come and is what the
    recursion descends on; [retry] starts it at [attempts - 1], which
    the test [i >= attempts - 1] never lets run out
    (see [retry_loop_budget]). *)
Fixpoint retry_loop (attempts sleep : Z) (f : St → option error * St)
    (budget : nat) (i : Z) (s : St) : option error * St :=
  let '(err, s) := f s in
  match err with
  | None => (None, s)
  | Some e =>
      let s := Warnw "got err, waiting to retry" [("err", Error e)] s in
      if i >=? wrapInt (attempts - 1) then (Some e, s)
      else
        match budget with
        | O => (Some e, s)
        | S budget' =>
            retry_loop attempts sleep f budget' (i + 1) (Sleep sleep s)
        end
  end.

(** [fmt.Errorf("after %d attempts, last error: %s", attempts, err)] *)
Definition retry_error (attempts : Z) (err : error) : error :=
  Errorf_s ("after " +:+ pretty attempts +:+ " attempts, last error: ") err.

Definition retry (attempts sleep : Z) (f : St → option error * St)
    (s : St) : option error * St :=
  match retry_loop attempts sleep f (Z.to_nat (wrapInt (attempts - 1))) 0 s with
  | (None, s') => (None, s')
  | (Some e, s') => (Some (retry_error attempts e), s')
  end.

End Retry.

(** *** Observing the calls of [retry]

    To speak of how often [retry] calls [f] and when it sleeps, the state
    is paired with a record of both, oldest first: the result of every
    call of [f] and the duration of every sleep. *)

Inductive RetryEvent : Type :=
  | Called (res : option error)
  | Slept (d : Z).

Record Probe (St : Type) : Type := mkProbe {
  inner : St;
  events : list RetryEvent;
}.
Arguments mkProbe {St} _ _.
Arguments inner {St} _.
Arguments events {St} _.

Section Probe.

Context {St : Type}.
Variable Sleep : Z → St → St.
Variable Warnw : string → list (string * string) → St → St.

Definition probe_call (f : St → option error * St)
    (p : Probe St) : option error * Probe St :=
  let '(err, s) := f (inner p) in
  (err, mkProbe s (events p ++ [Called err])).

Definition probe_Sleep (d : Z) (p : Probe St) : Probe St :=
  mkProbe (Sleep d (inner p)) (events p ++ [Slept d]).

Definition probe_Warnw (msg : string) (kv : list (string * string))
    (p : Probe St) : Probe St :=
  mkProbe (Warnw msg kv (inner p)) (events p).

(** [retry] with its calls and sleeps recorded, started on an empty
    record. *)
Definition probed_retry (attempts sleep : Z) (f : St → option error * St)
    (s : St) : option error * Probe St :=
  retry probe_Sleep probe_Warnw attempts sleep (probe_call f) (mkProbe s []).

End Probe.

(** The number of calls of [f] in a record. *)
Definition count_calls (evs : list RetryEvent) : nat :=
  length (List.filter (λ ev, match ev with Called _ => true | Slept _ => false end) evs).

(** The record of a run in which [f] fails with each of [failures] in
    turn, with a sleep of [d] after each, and then ends with [final]. *)
Definition attempts_trace (d : Z) (failures : list error)
    (final : option error) : list RetryEvent :=
  flat_map (λ e, [Called (Some e); Slept d]) failures ++ [Called final].

(** The statement that [retry] stops calling [f] once the context is
    done.  [retry] is not handed a context, so the context is whatever
    part of the state says whether it is done, [done]; once done it stays
    done.  The first call may be the one in flight, so a run that starts
    with the context done would call [f] at most once. *)
Definition aborts_once_cancelled : Prop :=
  ∀ (St : Type) (done : St → bool)
    (Sleep : Z → St → St)
    (Warnw : string → list (string * string) → St → St)
    (f : St → option error * St) (attempts sleep : Z) (s : St),
    (∀ s, done s = true → done (snd (f s)) = true) →
    (∀ d s, done s = true → done (Sleep d s) = true) →
    (∀ msg kv s, done s = true → done (Warnw msg kv s) = true) →
    1 ≤ attempts ≤ maxInt →
    done s = true →
    (count_calls (events (snd (probed_retry Sleep Warnw attempts sleep f s))) ≤ 1)%nat.

(** ** The collaborators of the sidecar *)

(** A Go pair [(value, error)] in which exactly one side is set. *)
Inductive result (A : Type) : Type :=
  | Ok (a : A)
  | Err (e : error).
Arguments Ok {A} a.
Arguments Err {A} e.

(** [net.IPNet]: an address and its mask, both byte slices. *)
Record IPNet : Type := mkIPNet {
  IP : list Byte.byte;
  Mask : list Byte.byte;
}.

(** [libcni.RuntimeConf].  [CapabilityArgs] maps names to untyped values
    in Go; the sidecar only ever passes the empty map. *)
Record RuntimeConf : Type := mkRuntimeConf {
  ContainerID : string;
  NetNS : string;
  IfName : string;
  Args : list (string * string);
  CapabilityArgs : gmap string string;
}.

(** Everything [ConfigureNetwork] relies on and that is declared outside
    its file.  [World] is the state those collaborators keep (the kernel's
    links, addresses and routes, and what the CNI plugin has set up); each
    operation maps a world to its result and the next world.
    [defaultDataNetwork] and [dataNetworkIfname] are constants of the
    package; [getK8sRoutes] returns a pointer, which may be nil, next to
    its error; [AddNetworkList_time] is how long that attach call blocks,
    in nanoseconds; [select_takes_timer] is the case a [select] takes when
    its channel and its timer are ready at the same instant. *)
Record Env : Type := mkEnv {
  World : Type;
  netlink_Link : Type;
  NetlinkLink : Type;
  route : Type;
  NetworkConfigList : Type;
  LinkShape : Type;
  LinkRule : Type;
  RoutingPolicyType : Type;
  defaultDataNetwork : string;
  dataNetworkIfname : string;
  ConfListFromBytes : string → result NetworkConfigList;
  AddNetworkList :
    NetworkConfigList → RuntimeConf → World → option error * World;
  AddNetworkList_time : NetworkConfigList → RuntimeConf → World → Z;
  DelNetworkList :
    NetworkConfigList → RuntimeConf → World → option error * World;
  LinkByName : string → World → result netlink_Link * World;
  getK8sRoutes : netlink_Link → World → (option route * option error) * World;
  NewNetlinkLink : netlink_Link → World → result NetlinkLink * World;
  ListV4 : NetlinkLink → World → result (list IPNet) * World;
  Shape : NetlinkLink → LinkShape → World → option error * World;
  AddRules : NetlinkLink → list LinkRule → World → option error * World;
  handleRoutingPolicy :
    gmap string (option route) → RoutingPolicyType → World →
    option error * World;
  IP_Equal : list Byte.byte → list Byte.byte → bool;
  IPNet_String : IPNet → string;
  select_takes_timer : bool;
}.

(** [network.Config] of the SDK, as far as the sidecar reads it. *)
Module network.
Record Config (E : Env) : Type := mkConfig {
  Network : string;
  Enable : bool;
  IPv4 : option IPNet;
  IPv6 : option IPNet;
  Default : LinkShape E;
  Rules : list (LinkRule E);
  RoutingPolicy : RoutingPolicyType E;
}.
Arguments mkConfig {E} _ _ _ _ _ _ _.
Arguments Network {E} _.
Arguments Enable {E} _.
Arguments IPv4 {E} _.
Arguments IPv6 {E} _.
Arguments Default {E} _.
Arguments Rules {E} _.
Arguments RoutingPolicy {E} _.
End network.

(** ** newNetworkConfigList *)

(** The two documents are Go raw string literals around [addr]; they are
    written here with ['] standing for the double quote, which [unq]
    puts back. *)
Definition unq_char (c : ascii) : ascii :=
  if Ascii.eqb c "'"%char then "034"%char else c.

Fixpoint unq (s : string) : string :=
  match s with
  | EmptyString => EmptyString
  | String c rest => String (unq_char c) (unq rest)
  end.

(** The text before [addr] for kind [net]. *)
Definition netHead : string := unq "
{
		'cniVersion': '0.3.0',
		'name': 'weave-net',
		'plugins': [
				{
						'name': 'weave-net',
						'type': 'weave-net',
						'ipam': {
								'subnet': '".

(** The text that follows [addr] for kind [net]. *)
Definition netTail : string := unq "'
						},
						'hairpinMode': true
				}
		]
}
".

(** The text before [addr] for kind [ip]. *)
Definition ipHead : string := unq "
{
		'cniVersion': '0.3.0',
		'name': 'weave-net',
		'plugins': [
				{
						'name': 'weave-net',
						'type': 'weave-net',
						'ipam': {
								'ips': [
								  {
									  'version': '4',
										'address': '".

(** The text that follows [addr] for kind [ip]. *)
Definition ipTail : string := unq "'
								  }
								]
						},
						'hairpinMode': true
				}
		]
}
".

Section Sidecar.

Context (E : Env).

Definition newNetworkConfigList (t addr : string)
    : result (NetworkConfigList E) :=
  if String.eqb t "net" then
    ConfListFromBytes E (netHead +:+ addr +:+ netTail)
  else if String.eqb t "ip" then
    ConfListFromBytes E (ipHead +:+ addr +:+ ipTail)
  else Err (errors_New "unknown type").

(** ** The state of the sidecar *)

(** [k8sLink]: the embedded [*NetlinkLink], the addresses, and the
    runtime record and configuration list the link was attached with. *)
Record k8sLink : Type := mkLink {
  embedded : NetlinkLink E;
  IPv4 : option IPNet;
  IPv6 : option IPNet;
  rt : RuntimeConf;
  netconf : NetworkConfigList E;
}.

(** [K8sNetwork].  Of [container] only the ID is read; the netlink handle
    [nl] and the CNI handle [cninet] are handles on the [World]. *)
Record K8sNetwork : Type := mkK8sNetwork {
  container_ID : string;
  activeLinks : gmap string k8sLink;
  externalRouting : gmap string (option (route E));
  subnet : string;
  netnsPath : string;
}.

(** One call of the CNI library: an attach, with the time it took, or a
    detach; the configuration and runtime record it was given, its
    result, and the active-link table as it stood when the call was
    made. *)
Inductive CniOp : Type :=
  | CniAdd (took : Z)
  | CniDel.

Record CniCall : Type := mkCniCall {
  call_op : CniOp;
  call_netconf : NetworkConfigList E;
  call_rt : RuntimeConf;
  call_result : option error;
  call_links : gmap string k8sLink;
}.

(** A warning written to the log: message and key/value pairs. *)
Record Warning : Type := mkWarning {
  warn_msg : string;
  warn_fields : list (string * string);
}.

(** What a call of [ConfigureNetwork] can read and change: the receiver,
    the world of the collaborators, the time (in nanoseconds) spent so
    far, and two records kept for the statements below, the CNI calls
    made and the warnings logged, oldest first. *)
Record State : Type := mkState {
  self : K8sNetwork;
  world : World E;
  clock : Z;
  cniCalls : list CniCall;
  logs : list Warning;
}.

Definition set_self (n : K8sNetwork) (s : State) : State :=
  mkState n (world s) (clock s) (cniCalls s) (logs s).

Definition set_world (w : World E) (s : State) : State :=
  mkState (self s) w (clock s) (cniCalls s) (logs s).

Definition set_clock (t : Z) (s : State) : State :=
  mkState (self s) (world s) t (cniCalls s) (logs s).

Definition record_call (c : CniCall) (s : State) : State :=
  mkState (self s) (world s) (clock s) (cniCalls s ++ [c]) (logs s).

Definition set_activeLinks (m : gmap string k8sLink) (n : K8sNetwork)
    : K8sNetwork :=
  mkK8sNetwork (container_ID n) m (externalRouting n) (subnet n) (netnsPath n).

Definition set_externalRouting (m : gmap string (option (route E)))
    (n : K8sNetwork) : K8sNetwork :=
  mkK8sNetwork (container_ID n) (activeLinks n) m (subnet n) (netnsPath n).

(** [time.Sleep(d)]: returns at once when [d] is not positive. *)
Definition Sleep (d : Z) (s : State) : State :=
  set_clock (clock s + Z.max 0 d) s.

(** [logging.S().Warnw(msg, key, value, ...)] *)
Definition Warnw (msg : string) (kv : list (string * string)) (s : State)
    : State :=
  mkState (self s) (world s) (clock s) (cniCalls s) (logs s ++ [mkWarning msg kv]).

(** [logging.S().Warnf(format, ...)], with the message already
    formatted. *)
Definition Warnf (msg : string) (s : State) : State := Warnw msg [] s.

(** ** Statements *)

(** How a block of statements of a Go function ends: control runs on
    with a value, the function returns, or the goroutine panics. *)
Inductive step (A : Type) : Type :=
  | Next (a : A)
  | Return (err : option error)
  | Panic (msg : string).
Arguments Next {A} a.
Arguments Return {A} err.
Arguments Panic {A} msg.

Definition Block (A : Type) : Type := State → step A * State.

Definition ret {A} (a : A) : Block A := λ s, (Next a, s).

Definition return_ {A} (err : option error) : Block A := λ s, (Return err, s).

Definition panic {A} (msg : string) : Block A := λ s, (Panic msg, s).

Definition bind {A B} (m : Block A) (k : A → Block B) : Block B :=
  λ s,
    match m s with
    | (Next a, s') => k a s'
    | (Return err, s') => (Return err, s')
    | (Panic msg, s') => (Panic msg, s')
    end.

Notation "'let!' x := m 'in' k" := (bind m (λ x, k))
  (at level 10, x name, m at level 100, k at level 200).
Notation "'do!' m 'in' k" := (bind m (λ _, k))
  (at level 10, m at level 100, k at level 200).

Definition gets {A} (f : State → A) : Block A := λ s, (Next (f s), s).

Definition modify (f : State → State) : Block unit := λ s, (Next tt, f s).

(** A call into the world of the collaborators. *)
Definition external {A} (op : World E → A * World E) : Block A :=
  λ s, let '(a, w) := op (world s) in (Next a, set_world w s).

(** [if err != nil { return wrap(err) }] *)
Definition check (wrap : error → error) (err : option error) : Block unit :=
  match err with
  | Some e => return_ (Some (wrap e))
  | None => ret tt
  end.

(** [v, err := ...; if err != nil { return wrap(err) }] *)
Definition try {A} (wrap : error → error) (r : result A) : Block A :=
  match r with
  | Err e => return_ (Some (wrap e))
  | Ok a => ret a
  end.

(** ** The CNI calls *)

(** [n.cninet.AddNetworkList(ctx, netconf, rt)], its result dropped but
    for the error. *)
Definition cniAdd (nc : NetworkConfigList E) (r : RuntimeConf) (s : State)
    : option error * State :=
  let '(err, w) := AddNetworkList E nc r (world s) in
  let took := AddNetworkList_time E nc r (world s) in
  (err,
   mkState (self s) w (clock s + took)
     (cniCalls s ++ [mkCniCall (CniAdd took) nc r err (activeLinks (self s))])
     (logs s)).

(** [n.cninet.DelNetworkList(ctx, netconf, rt)] *)
Definition cniDel (nc : NetworkConfigList E) (r : RuntimeConf)
    : Block (option error) :=
  λ s,
    let '(err, w) := DelNetworkList E nc r (world s) in
    (Next err,
     record_call (mkCniCall CniDel nc r err (activeLinks (self s)))
       (set_world w s)).

(** [delete(n.activeLinks, name)] *)
Definition deleteActiveLink (name : string) : Block unit :=
  modify (λ s, set_self (set_activeLinks (delete name (activeLinks (self s))) (self s)) s).

(** [n.activeLinks[name] = link] *)
Definition storeActiveLink (name : string) (link : k8sLink) : Block unit :=
  modify (λ s, set_self (set_activeLinks (<[name := link]> (activeLinks (self s))) (self s)) s).

(** [n.externalRouting[name] = routes] *)
Definition storeExternalRouting (name : string) (routes : option (route E))
    : Block unit :=
  modify (λ s, set_self (set_externalRouting (<[name := routes]> (externalRouting (self s))) (self s)) s).

(** ** ConfigureNetwork *)

(** The branch [if !cfg.Enable { ... }]: disconnect when online, then
    return. *)
Definition disableNetwork {A} (cfg : network.Config E) (link : option k8sLink)
    : Block A :=
  match link with
  | Some l =>
      let! err := cniDel (netconf l) (rt l) in
      do! check (Errorf_w "when 6: ") err in
      do! deleteActiveLink (network.Network cfg) in
      return_ None
  | None => return_ None
  end.

(** [want != nil && !have.IP.Equal(want.IP)], where [have] is a field of
    the link: reading [have.IP] through a nil [have] panics. *)
Definition addressDiffers (want have : option IPNet) : Block bool :=
  match want with
  | None => ret false
  | Some w =>
      match have with
      | None => panic "invalid memory address or nil pointer dereference"
      | Some h => ret (negb (IP_Equal E (IP h) (IP w)))
      end
  end.

(** The condition that follows [online &&]: the IPv6 comparison first,
    the IPv4 one only when the first is false. *)
Definition addressChange (cfg : network.Config E) (l : k8sLink) : Block bool :=
  let! v6 := addressDiffers (network.IPv6 cfg) (IPv6 l) in
  if v6 : bool then ret true
  else addressDiffers (network.IPv4 cfg) (IPv4 l).

(** The block [if online && (...) { ... }]: disconnect to change the
    address.  The value is the link that is still online, if any. *)
Definition disconnectOnAddressChange (cfg : network.Config E)
    (link : option k8sLink) : Block (option k8sLink) :=
  match link with
  | None => ret None
  | Some l =>
      let! changed := addressChange cfg l in
      if changed : bool then
        let! err := cniDel (netconf l) (rt l) in
        do! check (Errorf_w "when 5: ") err in
        do! deleteActiveLink (network.Network cfg) in
        ret None
      else ret (Some l)
  end.

(** The attach: a goroutine runs [retry(3, 2*time.Second, ...)] around
    [AddNetworkList] and sends the result on a channel, while the caller
    selects between that channel and [time.After(30 * time.Second)].
    The goroutine delivers when the time its calls and sleeps take has
    passed; the timer fires 30 seconds after the start.  The goroutine is
    not stopped by the timer: it runs its retries to the end, and they
    are part of the state returned.  When both are ready at the same
    instant Go may take either case; which one is left to the
    environment. *)
Definition attach (nc : NetworkConfigList E) (r : RuntimeConf) : Block unit :=
  λ s,
    let '(err, s') := retry Sleep Warnw 3 (2 * Second) (cniAdd nc r) s in
    let elapsed := clock s' - clock s in
    if (elapsed <? 30 * Second)
       || ((elapsed =? 30 * Second) && negb (select_takes_timer E)) then
      match err with
      | Some e =>
          (Return (Some (Errorf_w "failed to add network through cni plugin: " e)), s')
      | None => (Next tt, s')
      end
    else
      (Return (Some (errors_New "timeout waiting on cninet.AddNetworkList")),
       set_clock (clock s + 30 * Second) s').

(** [v4addrs[0]] *)
Definition first_address (v4addrs : list IPNet) : Block IPNet :=
  match v4addrs with
  | a :: _ => ret a
  | [] => panic "index out of range [0] with length 0"
  end.

(** [for _, route := range routes.routes]: only logs, but reads through
    the pointer. *)
Definition range_routes (routes : option (route E)) : Block unit :=
  match routes with
  | Some _ => ret tt
  | None => panic "invalid memory address or nil pointer dereference"
  end.

(** The configuration list of the connect branch: pool mode on the
    sidecar's subnet when no address is asked for, fixed-address mode on
    the address asked for otherwise. *)
Definition connectConfig (cfg : network.Config E) (n : K8sNetwork)
    : result (NetworkConfigList E) :=
  match network.IPv4 cfg with
  | None => newNetworkConfigList "net" (subnet n)
  | Some v4 => newNetworkConfigList "ip" (IPNet_String E v4)
  end.

(** The runtime record of the connect branch. *)
Definition runtimeConf (n : K8sNetwork) : RuntimeConf :=
  mkRuntimeConf (container_ID n) (netnsPath n) (dataNetworkIfname E) [] ∅.

(** What follows the attach in the connect branch: resolve the
    interface, keep its routes, and register the active link. *)
Definition registerLink (cfg : network.Config E) (nc : NetworkConfigList E)
    (r : RuntimeConf) : Block k8sLink :=
  let! byName := external (LinkByName E (dataNetworkIfname E)) in
  let! netlinkByName :=
    try (Errorf_w ("failed to get link by name " +:+ dataNetworkIfname E +:+ ": "))
      byName in
  let! routed := external (getK8sRoutes E netlinkByName) in
  do! range_routes (fst routed) in
  do! storeExternalRouting (dataNetworkIfname E) (fst routed) in
  do! check (λ e, e) (snd routed) in
  let! created := external (NewNetlinkLink E netlinkByName) in
  let! handle := try (Errorf_w "failed to register new netlink: ") created in
  let! listed := external (ListV4 E handle) in
  let! v4addrs := try (Errorf_w "failed to list v4 addrs: ") listed in
  do! (if Nat.eqb (length v4addrs) 1 then ret tt
       else
         modify (Warnf ("Found " +:+ pretty (length v4addrs) +:+ " v4 addresses, expected just 1"))) in
  let! v4 := first_address v4addrs in
  let link := mkLink handle (Some v4) None r nc in
  do! storeActiveLink (network.Network cfg) link in
  ret link.

(** The block [if !online { ... }]: connect and register the link. *)
Definition connect (cfg : network.Config E) : Block k8sLink :=
  match network.IPv6 cfg with
  | Some _ => return_ (Some (errors_New "ipv6 not supported"))
  | None =>
      let! n := gets self in
      let! nc :=
        try (Errorf_w "failed to generate new network config list: ")
          (connectConfig cfg n) in
      let r := runtimeConf n in
      do! attach nc r in
      registerLink cfg nc r
  end.

(** The statements after the connect branch: shape the link, install the
    rules, apply the routing policy, return nil. *)
Definition applyConfig (cfg : network.Config E) (link : k8sLink)
    : Block Empty_set :=
  let! err := external (Shape E (embedded link) (network.Default cfg)) in
  do! check (Errorf_w "failed to shape link: ") err in
  let! err := external (AddRules E (embedded link) (network.Rules cfg)) in
  do! check (λ e, e) err in
  let! routing := gets (λ s, externalRouting (self s)) in
  let! err := external (handleRoutingPolicy E routing (network.RoutingPolicy cfg)) in
  do! check (λ e, e) err in
  return_ None.

(** Everything after the skip: from the lookup of the active link to the
    final [return nil]. *)
Definition configure (cfg : network.Config E) : Block Empty_set :=
  let! link := gets (λ s, activeLinks (self s) !! network.Network cfg) in
  if negb (network.Enable cfg) then disableNetwork cfg link
  else
    let! online := disconnectOnAddressChange cfg link in
    let! link :=
      match online with
      | Some l => ret l
      | None => connect cfg
      end in
    applyConfig cfg link.

(** [var skipConfig = true] *)
Definition skipConfig : bool := true.

Definition ConfigureNetwork (cfg : network.Config E) : Block Empty_set :=
  if negb (String.eqb (network.Network cfg) (defaultDataNetwork E)) then
    return_ (Some (plainError ("configured network is not `" +:+ defaultDataNetwork E +:+ "`")))
  else if skipConfig then return_ None
  else configure cfg.

(** The collaborators let a connect go through in state [s]: the
    configuration list is [nc], the first attach call succeeds within the
    deadline, the interface resolves, its routes are read, and the new
    link, with handle [h], lists the addresses [addrs]. *)
Definition connects_cleanly (cfg : network.Config E) (s : State)
    (nc : NetworkConfigList E) (h : NetlinkLink E) (addrs : list IPNet)
    : Prop :=
  ∃ w1 l w2 routes w3 w4 w5,
    connectConfig cfg (self s) = Ok nc ∧
    AddNetworkList E nc (runtimeConf (self s)) (world s) = (None, w1) ∧
    AddNetworkList_time E nc (runtimeConf (self s)) (world s) < 30 * Second ∧
    LinkByName E (dataNetworkIfname E) w1 = (Ok l, w2) ∧
    getK8sRoutes E l w2 = ((Some routes, None), w3) ∧
    NewNetlinkLink E l w3 = (Ok h, w4) ∧
    ListV4 E h w4 = (Ok addrs, w5).

(** A detach of link [l] made in state [s], and the removal of the
    entry [name] from the active links: the two steps by which a link
    goes offline. *)
Definition detached (l : k8sLink) (s : State) : option error * State :=
  let '(err, w) := DelNetworkList E (netconf l) (rt l) (world s) in
  (err,
   record_call (mkCniCall CniDel (netconf l) (rt l) err (activeLinks (self s)))
     (set_world w s)).

Definition unlinked (name : string) (s : State) : State :=
  set_self (set_activeLinks (delete name (activeLinks (self s))) (self s)) s.

(** A block that relates every state it starts in to the state it ends
    in by [R], however it ends. *)
Definition frames {A} (R : State → State → Prop) (m : Block A) : Prop :=
  ∀ s, R s (snd (m s)).

(** No CNI call, no time spent in an attach. *)
Definition quiet (s s' : State) : Prop :=
  cniCalls s' = cniCalls s ∧ clock s' = clock s.

(** The active links are left as they are. *)
Definition same_links (s s' : State) : Prop :=
  activeLinks (self s') = activeLinks (self s).

(** An attach call for [nc] and [r] made while the active links were
    [links]. *)
Definition is_attach (nc : NetworkConfigList E) (r : RuntimeConf)
    (links : gmap string k8sLink) (c : CniCall) : Prop :=
  ∃ took, c = mkCniCall (CniAdd took) nc r (call_result c) links.

(** The attach calls of a list of CNI calls, and the time at which a
    goroutine that made them, sleeping [d] between them, is through. *)
Definition attach_time (c : CniCall) : option Z :=
  match call_op c with
  | CniAdd took => Some took
  | CniDel => None
  end.

Definition attach_times (cs : list CniCall) : list Z :=
  omap attach_time cs.

Definition retry_elapsed (d : Z) (times : list Z) : Z :=
  foldr Z.add 0 times + Z.max 0 d * (Z.of_nat (length times) - 1).

(** The CNI calls of a run that starts in [s] and ends in [out]: at most
    one detach, of the link that was online, followed by the attach
    calls, at most three, all for one configuration list and made with
    that link out of the table; and how the run ends when the attach
    calls outlast the deadline or fail within it. *)
Definition run_calls (cfg : network.Config E) (s : State)
    (out : step Empty_set * State) : Prop :=
  let '(res, s') := out in
  let N := network.Network cfg in
  let links := activeLinks (self s) in
  ∃ dels adds,
    cniCalls s' = cniCalls s ++ dels ++ adds ∧
    match dels with
    | [] => ∀ l, links !! N = Some l → adds = [] ∧ activeLinks (self s') = links
    | [d] =>
        ∃ l, links !! N = Some l ∧
             d = mkCniCall CniDel (netconf l) (rt l) (call_result d) links ∧
             (call_result d ≠ None → adds = [] ∧ activeLinks (self s') = links)
    | _ => False
    end ∧
    (adds ≠ [] →
     ∃ nc,
       let elapsed := retry_elapsed (2 * Second) (attach_times adds) in
       Forall (is_attach nc (runtimeConf (self s)) (delete N links)) adds ∧
       length (attach_times adds) = length adds ∧
       (length adds ≤ 3)%nat ∧
       (30 * Second < elapsed →
        res = Return (Some (errors_New "timeout waiting on cninet.AddNetworkList"))) ∧
       (elapsed < 30 * Second →
        ∀ c e, last adds = Some c → call_result c = Some e →
          length adds = 3%nat ∧
          res = Return (Some (Errorf_w "failed to add network through cni plugin: "
                                (retry_error 3 e))))).

End Sidecar.

Arguments Next {A} a.
Arguments Return {A} err.
Arguments Panic {A} msg.
Arguments mkLink {E} _ _ _ _ _.
Arguments embedded {E} _.
Arguments IPv4 {E} _.
Arguments IPv6 {E} _.
Arguments rt {E} _.
Arguments netconf {E} _.
Arguments mkK8sNetwork {E} _ _ _ _ _.
Arguments container_ID {E} _.
Arguments activeLinks {E} _.
Arguments externalRouting {E} _.
Arguments subnet {E} _.
Arguments netnsPath {E} _.
Arguments mkCniCall {E} _ _ _ _ _.
Arguments call_op {E} _.
Arguments call_netconf {E} _.
Arguments call_rt {E} _.
Arguments call_result {E} _.
Arguments call_links {E} _.
Arguments mkState {E} _ _ _ _ _.
Arguments self {E} _.
Arguments world {E} _.
Arguments clock {E} _.
Arguments cniCalls {E} _.
Arguments logs {E} _.
Arguments set_self {E} _ _.
Arguments set_world {E} _ _.
Arguments set_clock {E} _ _.
Arguments record_call {E} _ _.
Arguments set_activeLinks {E} _ _.
Arguments set_externalRouting {E} _ _.
Arguments Sleep {E} _ _.
Arguments Warnw {E} _ _ _.
Arguments Warnf {E} _ _.
Arguments ret {E A} _ _.
Arguments return_ {E A} _ _.
Arguments panic {E A} _ _.
Arguments bind {E A B} _ _ _.
Arguments gets {E A} _ _.
Arguments modify {E} _ _.
Arguments external {E A} _ _.
Arguments check {E} _ _ _.
Arguments try {E A} _ _ _.
Arguments cniAdd {E} _ _ _.
Arguments cniDel {E} _ _ _.
Arguments deleteActiveLink {E} _ _.
Arguments storeActiveLink {E} _ _ _.
Arguments storeExternalRouting {E} _ _ _.
Arguments disableNetwork {E A} _ _ _.
Arguments addressDiffers {E} _ _ _.
Arguments addressChange {E} _ _ _.
Arguments disconnectOnAddressChange {E} _ _ _.
Arguments attach {E} _ _ _.
Arguments first_address {E} _ _.
Arguments range_routes {E} _ _.
Arguments connectConfig {E} _ _.
Arguments runtimeConf {E} _.
Arguments registerLink {E} _ _ _ _.
Arguments connect {E} _ _.
Arguments applyConfig {E} _ _ _.
Arguments configure {E} _ _.
Arguments ConfigureNetwork {E} _ _.
Arguments connects_cleanly {E} _ _ _ _ _.
Arguments frames {E A} _ _.
Arguments quiet {E} _ _.
Arguments same_links {E} _ _.
Arguments is_attach {E} _ _ _ _.
Arguments attach_time {E} _.
Arguments attach_times {E} _.
Arguments detached {E} _ _.
Arguments unlinked {E} _ _.
Arguments run_calls {E} _ _ _.

(** ** Reading a configuration document

    What a JSON document says, for the part of JSON the two documents of
    [newNetworkConfigList] are written in: objects, arrays, strings
    without escape sequences, and the three literals.  It is used to
    state which fields a document carries; a text outside that part (a
    backslash or a control character inside a string, a number) has no
    reading here. *)
Module Json.

#[local] Set Warnings "-register-all".
Inductive value : Type :=
  | Null
  | Bool (b : bool)
  | Str (s : string)
  | Arr (items : list value)
  | Obj (members : list (string * value)).

Inductive token : Type :=
  | LBrace | RBrace | LBracket | RBracket | Colon | Comma
  | TStr (s : string)
  | TTrue | TFalse | TNull.

Definition is_space (c : ascii) : bool :=
  let n := nat_of_ascii c in
  Nat.eqb n 32 || Nat.eqb n 9 || Nat.eqb n 10 || Nat.eqb n 13.

(** A character that may stand for itself inside a string: printable
    ASCII other than the double quote and the backslash. *)
Definition is_plain (c : ascii) : bool :=
  let n := nat_of_ascii c in
  Nat.leb 32 n && Nat.leb n 126 && negb (Nat.eqb n 34) && negb (Nat.eqb n 92).


(** The lexer reads one character at a time.  Between tokens it is
    [Outside]; inside a string it holds the characters read so far, and
    likewise inside one of the words [true], [false] and [null]. *)
Inductive mode : Type :=
  | Outside
  | InString (acc : string)
  | InWord (acc : string).

Definition is_letter (c : ascii) : bool :=
  let n := nat_of_ascii c in
  Nat.leb 97 n && Nat.leb n 122.

Definition punctuation (c : ascii) : option token :=
  if Ascii.eqb c "{" then Some LBrace
  else if Ascii.eqb c "}" then Some RBrace
  else if Ascii.eqb c "[" then Some LBracket
  else if Ascii.eqb c "]" then Some RBracket
  else if Ascii.eqb c ":" then Some Colon
  else if Ascii.eqb c "," then Some Comma
  else None.

Definition word (w : string) : option token :=
  if String.eqb w "true" then Some TTrue
  else if String.eqb w "false" then Some TFalse
  else if String.eqb w "null" then Some TNull
  else None.

Definition snoc (s : string) (c : ascii) : string :=
  s +:+ String c EmptyString.

(** One character read between tokens, after the tokens [ts]. *)
Definition step_outside (ts : list token) (c : ascii)
    : option (mode * list token) :=
  if is_space c then Some (Outside, ts)
  else if Ascii.eqb c "034" then Some (InString EmptyString, ts)
  else if is_letter c then Some (InWord (String c EmptyString), ts)
  else
    match punctuation c with
    | Some t => Some (Outside, ts ++ [t])
    | None => None
    end.

Definition step (st : mode * list token) (c : ascii)
    : option (mode * list token) :=
  match st with
  | (Outside, ts) => step_outside ts c
  | (InString acc, ts) =>
      if Ascii.eqb c "034" then Some (Outside, ts ++ [TStr acc])
      else if is_plain c then Some (InString (snoc acc c), ts)
      else None
  | (InWord acc, ts) =>
      if is_letter c then Some (InWord (snoc acc c), ts)
      else
        match word acc with
        | Some t => step_outside (ts ++ [t]) c
        | None => None
        end
  end.

Fixpoint run (st : mode * list token) (s : string)
    : option (mode * list token) :=
  match s with
  | EmptyString => Some st
  | String c rest =>
      match step st c with
      | Some st' => run st' rest
      | None => None
      end
  end.

(** The tokens of a text that has been read to its end. *)
Definition finish (st : mode * list token) : option (list token) :=
  match st with
  | (Outside, ts) => Some ts
  | (InString _, _) => None
  | (InWord acc, ts) =>
      match word acc with
      | Some t => Some (ts ++ [t])
      | None => None
      end
  end.

Definition lex (s : string) : option (list token) :=
  match run (Outside, []) s with
  | Some st => finish st
  | None => None
  end.

(** A value at the head of the tokens, with the tokens that follow it.
    [fuel] bounds the nesting and the number of items; [parse] gives it
    the number of tokens. *)
Fixpoint parse_value (fuel : nat) (ts : list token)
    : option (value * list token) :=
  match fuel with
  | O => None
  | S fuel =>
      match ts with
      | TStr s :: r => Some (Str s, r)
      | TTrue :: r => Some (Bool true, r)
      | TFalse :: r => Some (Bool false, r)
      | TNull :: r => Some (Null, r)
      | LBracket :: RBracket :: r => Some (Arr [], r)
      | LBracket :: r => parse_items fuel r []
      | LBrace :: RBrace :: r => Some (Obj [], r)
      | LBrace :: r => parse_members fuel r []
      | _ => None
      end
  end
with parse_items (fuel : nat) (ts : list token) (acc : list value)
    : option (value * list token) :=
  match fuel with
  | O => None
  | S fuel =>
      match parse_value fuel ts with
      | Some (v, Comma :: r) => parse_items fuel r (acc ++ [v])
      | Some (v, RBracket :: r) => Some (Arr (acc ++ [v]), r)
      | _ => None
      end
  end
with parse_members (fuel : nat) (ts : list token)
    (acc : list (string * value)) : option (value * list token) :=
  match fuel with
  | O => None
  | S fuel =>
      match ts with
      | TStr k :: Colon :: r =>
          match parse_value fuel r with
          | Some (v, Comma :: r') => parse_members fuel r' (acc ++ [(k, v)])
          | Some (v, RBrace :: r') => Some (Obj (acc ++ [(k, v)]), r')
          | _ => None
          end
      | _ => None
      end
  end.

(** The value a whole document denotes. *)
Definition parse (doc : string) : option value :=
  match lex doc with
  | Some ts =>
      match parse_value (S (length ts)) ts with
      | Some (v, []) => Some v
      | _ => None
      end
  | None => None
  end.

(** The member [k] of an object; of several members with one name the
    last one counts. *)
Definition get (k : string) (v : value) : option value :=
  match v with
  | Obj members =>
      snd <$> last (filter (λ kv, String.eqb (fst kv) k = true) members)
  | _ => None
  end.

End Json.

(** The document of pool mode: one plugin entry whose [ipam] object has
    the single field [subnet]. *)
Definition poolDocument (subnet : string) : Json.value :=
  Json.Obj
    [("cniVersion", Json.Str "0.3.0");
     ("name", Json.Str "weave-net");
     ("plugins",
      Json.Arr
        [Json.Obj
           [("name", Json.Str "weave-net");
            ("type", Json.Str "weave-net");
            ("ipam", Json.Obj [("subnet", Json.Str subnet)]);
            ("hairpinMode", Json.Bool true)]])].


(** ** A scripted environment

    A small environment to run the sidecar in: the world is the script of
    the attach calls still to come (the error and the time each one
    takes; a call past the end of the script succeeds at once), the
    detach call answers [del], [ListV4] answers [addrs], everything else
    succeeds, and a network configuration list is the document it was
    made from. *)

(** An IPv4 address in dotted form. *)
Definition dotted (ip : list Byte.byte) : string :=
  String.concat "." (map (λ b, pretty (Byte.to_N b)) ip).

(** The number of bits set in a mask. *)
Definition mask_ones (mask : list Byte.byte) : nat :=
  length (List.filter (λ i, N.testbit (Byte.to_N (fst i)) (snd i))
            (mask ≫= λ b, map (pair b) [0; 1; 2; 3; 4; 5; 6; 7]%N)).

Definition cidr (a : IPNet) : string :=
  dotted (IP a) +:+ "/" +:+ pretty (mask_ones (Mask a)).

Definition same_bytes (a b : list Byte.byte) : bool :=
  Nat.eqb (length a) (length b)
  && forallb (λ p, Byte.eqb (fst p) (snd p)) (combine a b).

Definition scripted (del : option error) (addrs : result (list IPNet)) : Env :=
  {| World := list (option error * Z);
     netlink_Link := unit;
     NetlinkLink := unit;
     route := unit;
     NetworkConfigList := string;
     LinkShape := unit;
     LinkRule := unit;
     RoutingPolicyType := unit;
     defaultDataNetwork := "default";
     dataNetworkIfname := "eth1";
     ConfListFromBytes := λ bytes, Ok bytes;
     AddNetworkList := λ _ _ w,
       match w with
       | [] => (None, [])
       | (err, _) :: w' => (err, w')
       end;
     AddNetworkList_time := λ _ _ w,
       match w with
       | [] => 0
       | (_, d) :: _ => d
       end;
     DelNetworkList := λ _ _ w, (del, w);
     LinkByName := λ _ w, (Ok tt, w);
     getK8sRoutes := λ _ w, ((Some tt, None), w);
     NewNetlinkLink := λ _ w, (Ok tt, w);
     ListV4 := λ _ w, (addrs, w);
     Shape := λ _ _ w, (None, w);
     AddRules := λ _ _ w, (None, w);
     handleRoutingPolicy := λ _ _ w, (None, w);
     IP_Equal := same_bytes;
     IPNet_String := cidr;
     select_takes_timer := true |}.

(** 10.0.0.5/24 and 10.0.0.9/24 *)
Definition addr5 : IPNet := mkIPNet [x0a; x00; x00; x05] [xff; xff; xff; x00].
Definition addr9 : IPNet := mkIPNet [x0a; x00; x00; x09] [xff; xff; xff; x00].
Definition addr6 : IPNet :=
  mkIPNet [xfd; x00; x00; x00; x00; x00; x00; x00; x00; x00; x00; x00; x00; x00; x00; x01]
    [xff; xff; xff; xff; xff; xff; xff; xff; x00; x00; x00; x00; x00; x00; x00; x00].

(** A sidecar for container [c1] with the given active links, in a world
    with the given attach script. *)
Definition sidecar (E : Env) (links : gmap string (k8sLink E)) (w : World E)
    : State E :=
  mkState (mkK8sNetwork "c1" links ∅ "10.32.0.0/12" "/proc/1/ns/net") w 0 [] [].

(** The [ipam] object of the single plugin entry of a document. *)
Definition plugin_ipam (doc : Json.value) : option Json.value :=
  match Json.get "plugins" doc with
  | Some (Json.Arr [entry]) => Json.get "ipam" entry
  | _ => None
  end.

(** A string that closes the string it is spliced into and opens a
    field of its own. *)
Definition injected : string := unq "a','x':'b".

(** The scenarios the statements below are tried on: a world in which
    every call succeeds and the new link lists 10.0.0.5/24; the
    configurations that ask for that address, for another one, for an
    IPv6 address, and for the network to be switched off; and a link that
    is online with 10.0.0.5/24. *)
Definition friendly : Env := scripted None (Ok [addr5]).

Definition config (E : Env) (enable : bool) (v4 v6 : option IPNet)
    (shape : LinkShape E) (policy : RoutingPolicyType E) : network.Config E :=
  network.mkConfig (defaultDataNetwork E) enable v4 v6 shape [] policy.

Definition fixed5 : network.Config friendly := config friendly true (Some addr5) None tt tt.
Definition fixed9 : network.Config friendly := config friendly true (Some addr9) None tt tt.
Definition pooled : network.Config friendly := config friendly true None None tt tt.
Definition wants6 : network.Config friendly := config friendly true None (Some addr6) tt tt.
Definition off6 : network.Config friendly := config friendly false None (Some addr6) tt tt.
Definition off : network.Config friendly := config friendly false None None tt tt.

Definition link5 : k8sLink friendly :=
  mkLink (E:=friendly) tt (Some addr5) None
    (mkRuntimeConf "c1" "/proc/1/ns/net" "eth1" [] ∅)
    (ipHead +:+ "10.0.0.5/24" +:+ ipTail).

Definition online5 : gmap string (k8sLink friendly) := {["default" := link5]}.


(** An environment in which the new link lists two addresses. *)
Definition crowded : Env := scripted None (Ok [addr5; addr9]).

(** An attach call that succeeds after 31 seconds, and attach calls that
    fail after 9 seconds each. *)
Definition slow : World friendly := [(None, 31 * Second)].
Definition failing : World friendly :=
  [(Some (errors_New "no address"), 9 * Second);
   (Some (errors_New "no address"), 9 * Second);
   (Some (errors_New "no address"), 9 * Second)].
Definition refused : World friendly :=
  [(Some (errors_New "no address"), Second);
   (Some (errors_New "no address"), Second);
   (Some (errors_New "plugin gone"), Second)].

(** A function that fails on its first two calls and succeeds from the
    third on, and one that always fails; the state counts the calls. *)
Definition fails_twice (c : nat) : option error * nat :=
  (if (c <? 2)%nat then Some (errors_New "not yet") else None, S c).

Definition always_fails (c : nat) : option error * nat :=
  (Some (errors_New ("failure " +:+ pretty c)), S c).

(** ** The rest of the file *)

Section Listing.

Context (E : Env).

(** [ListActive]: the names of the networks that have an active link.
    Go ranges over a map in an order of its own; the list here follows
    the order of the table, and no statement about it depends on that
    order. *)
Definition ListActive (n : K8sNetwork E) : list string :=
  (map_to_list (activeLinks n)).*1.

(** The warning that [retry] logs for an attach call that failed. *)
Definition failure_warning (c : CniCall E) : option Warning :=
  (λ e, mkWarning "got err, waiting to retry" [("err", Error e)])
    <$> call_result c.

(** The CNI calls made between state [s] and a later state [s']. *)
Definition new_calls (s s' : State E) : list (CniCall E) :=
  drop (length (cniCalls s)) (cniCalls s').

(** Every link of the table has an IPv4 address and no IPv6 address,
    which is how the connect branch makes them. *)
Definition links_as_registered (m : gmap string (k8sLink E)) : Prop :=
  ∀ name l, m !! name = Some l → IPv4 l ≠ None ∧ IPv6 l = None.

(** The requested addresses are those of link [l], as line 77 compares
    them: no IPv6 address is asked for, and the IPv4 address asked for,
    if any, has the IP of the link's. *)
Definition same_address (cfg : network.Config E) (l : k8sLink E) : Prop :=
  network.IPv6 cfg = None ∧
  (network.IPv4 cfg = None ∨
   ∃ want have,
     network.IPv4 cfg = Some want ∧ IPv4 l = Some have ∧
     IP_Equal E (IP have) (IP want) = true).

(** Outside the entry of network [name] and the routes of the data
    interface, the receiver is the same in [s'] as in [s]. *)
Definition same_elsewhere (name : string) (s s' : State E) : Prop :=
  (∀ k, k ≠ name →
     activeLinks (self s') !! k = activeLinks (self s) !! k) ∧
  (∀ k, k ≠ dataNetworkIfname E →
     externalRouting (self s') !! k = externalRouting (self s) !! k) ∧
  container_ID (self s') = container_ID (self s) ∧
  subnet (self s') = subnet (self s) ∧
  netnsPath (self s') = netnsPath (self s).

(** A block that does not panic, whatever state it starts in. *)
Definition never_panics {A} (m : Block E A) : Prop :=
  ∀ s msg, fst (m s) ≠ Panic msg.

(** The links of [s'] are as registered if those of [s] are. *)
Definition keeps_links_as_registered (s s' : State E) : Prop :=
  links_as_registered (activeLinks (self s)) →
  links_as_registered (activeLinks (self s')).

End Listing.

Arguments ListActive {E} _.
Arguments failure_warning {E} _.
Arguments new_calls {E} _ _.
Arguments links_as_registered {E} _.
Arguments same_address {E} _ _.
Arguments same_elsewhere {E} _ _ _.
Arguments keeps_links_as_registered {E} _ _.
Arguments never_panics {E A} _.

Section ServiceRoute.

(** The netlink handle of [getServiceRoute]: the state [W] behind it, its
    routes, and [handle.RouteGet]. *)
Context {W Route : Type}.
Variable RouteGet : list Byte.byte → W → result (list Route) * W.

(** [getServiceRoute(handle, serviceIP)].  The value is the route, or
    the error; a panic would be the index [serviceRoutes[0]] out of
    range. *)
Definition getServiceRoute (serviceIP : list Byte.byte) (w : W)
    : step (result Route) * W :=
  let '(got, w) := RouteGet serviceIP w in
  match got with
  | Err e => (Next (Err (Errorf_w "failed to resolve route to service: " e)), w)
  | Ok serviceRoutes =>
      if negb (Nat.eqb (length serviceRoutes) 1) then
        (Next (Err (plainError
                      ("expected to get only one route to the given service, but got "
                       +:+ pretty (length serviceRoutes)))), w)
      else
        match serviceRoutes with
        | serviceRoute :: _ => (Next (Ok serviceRoute), w)
        | [] => (Panic "index out of range [0] with length 0", w)
        end
  end.

End ServiceRoute.

(** ** More scenarios *)

(** The collaborators let a connect in state [s] get as far as the
    routes: the configuration list is [nc], the first attach call
    succeeds within the deadline, and the interface resolves to [l],
    leaving the world [w2]. *)
Definition reaches_routes {E : Env} (cfg : network.Config E) (s : State E)
    (nc : NetworkConfigList E) (l : netlink_Link E) (w2 : World E) : Prop :=
  ∃ w1,
    connectConfig cfg (self s) = Ok nc ∧
    AddNetworkList E nc (runtimeConf (self s)) (world s) = (None, w1) ∧
    AddNetworkList_time E nc (runtimeConf (self s)) (world s) < 30 * Second ∧
    LinkByName E (dataNetworkIfname E) w1 = (Ok l, w2).

(** The state in which the attach of a connect starts when link [l] has
    just been detached for a change of address. *)
Definition after_detach {E : Env} (cfg : network.Config E) (l : k8sLink E)
    (s : State E) : State E :=
  unlinked (network.Network cfg) (snd (detached l s)).

(** An environment that is [E] but for [getK8sRoutes]. *)
Definition with_routes (E : Env)
    (routes : netlink_Link E → World E → (option (route E) * option error) * World E)
    : Env :=
  {| World := World E;
     netlink_Link := netlink_Link E;
     NetlinkLink := NetlinkLink E;
     route := route E;
     NetworkConfigList := NetworkConfigList E;
     LinkShape := LinkShape E;
     LinkRule := LinkRule E;
     RoutingPolicyType := RoutingPolicyType E;
     defaultDataNetwork := defaultDataNetwork E;
     dataNetworkIfname := dataNetworkIfname E;
     ConfListFromBytes := ConfListFromBytes E;
     AddNetworkList := AddNetworkList E;
     AddNetworkList_time := AddNetworkList_time E;
     DelNetworkList := DelNetworkList E;
     LinkByName := LinkByName E;
     getK8sRoutes := routes;
     NewNetlinkLink := NewNetlinkLink E;
     ListV4 := ListV4 E;
     Shape := Shape E;
     AddRules := AddRules E;
     handleRoutingPolicy := handleRoutingPolicy E;
     IP_Equal := IP_Equal E;
     IPNet_String := IPNet_String E;
     select_takes_timer := select_takes_timer E |}.

(** [getK8sRoutes] fails and returns no routes. *)
Definition routeless : Env :=
  with_routes friendly (λ _ w, ((None, Some (errors_New "no routes")), w)).

(** [getK8sRoutes] returns the routes it has read next to an error. *)
Definition half_routed : Env :=
  with_routes friendly (λ _ w, ((Some tt, Some (errors_New "route dump interrupted")), w)).

(** The plugin hands out 10.0.0.9 whatever address is asked for. *)
Definition elsewhere : Env := scripted None (Ok [addr9]).

(** 10.0.0.5/16: the address of [addr5] under another mask. *)
Definition addr5_wide : IPNet := mkIPNet [x0a; x00; x00; x05] [xff; xff; x00; x00].

Definition fixed5_wide : network.Config friendly :=
  config friendly true (Some addr5_wide) None tt tt.

(** Two more links, on networks the sidecar does not configure. *)
Definition online3 : gmap string (k8sLink friendly) :=
  {["control" := link5; "default" := link5; "storage" := link5]}.

(** A routing table for [getServiceRoute]: the routes it has for each
    address, and an error for every address it does not know. *)
Definition route_table (table : list (list Byte.byte * list string))
    (ip : list Byte.byte) (w : nat) : result (list string) * nat :=
  (match List.find (λ entry, same_bytes (fst entry) ip) table with
   | Some entry => Ok (snd entry)
   | None => Err (errors_New "network is unreachable")
   end, S w).

(** * Properties *)

(** ** Integers and strings *)

Lemma wrapInt_small z : minInt ≤ z ≤ maxInt → wrapInt z = z.
Proof.
  unfold minInt, maxInt, wrapInt. intros H.
  rewrite Z.mod_small by lia. lia.
Qed.

Lemma append_assoc (a b c : string) : (a +:+ b) +:+ c = a +:+ b +:+ c.
Proof.
  induction a as [|x a IH]; [reflexivity|].
  change (String x ((a +:+ b) +:+ c) = String x (a +:+ b +:+ c)).
  by rewrite IH.
Qed.

Lemma count_calls_app xs ys :
  count_calls (xs ++ ys) = (count_calls xs + count_calls ys)%nat.
Proof. unfold count_calls. rewrite List.filter_app, length_app. reflexivity. Qed.

Lemma count_calls_attempts_trace d failures final :
  count_calls (attempts_trace d failures final) = S (length failures).
Proof.
  unfold attempts_trace. rewrite count_calls_app.
  induction failures as [|e es IH]; simpl in *; [reflexivity|].
  unfold count_calls in *. simpl in *. lia.
Qed.

Section RetryFacts.

Context {St : Type}.
Variable Sleep : Z → St → St.
Variable Warnw : string → list (string * string) → St → St.
Variables attempts sleep : Z.
Variable f : St → option error * St.

(** The bound on the iterations never cuts the loop short: from
    [attempts - 1 - i] on, every bound gives the same run. *)
Lemma retry_loop_budget budget : ∀ budget' i (s : St),
  wrapInt (attempts - 1) - i ≤ Z.of_nat budget →
  (budget ≤ budget')%nat →
  retry_loop Sleep Warnw attempts sleep f budget i s =
  retry_loop Sleep Warnw attempts sleep f budget' i s.
Proof.
  induction budget as [|b IH]; intros [|b'] i s Hb Hle; simpl;
    try reflexivity; try lia;
    destruct (f s) as [[e|] s1]; try reflexivity;
    destruct (Z.geb_spec i (wrapInt (attempts - 1))); try reflexivity; try lia.
  apply IH; lia.
Qed.

Lemma probed_loop_inner budget : ∀ i (p : Probe St),
  retry_loop Sleep Warnw attempts sleep f budget i (inner p) =
  let '(r, p') :=
    retry_loop (probe_Sleep Sleep) (probe_Warnw Warnw) attempts sleep
      (probe_call f) budget i p in
  (r, inner p').
Proof.
  induction budget as [|b IH]; intros i p; simpl; unfold probe_call;
    destruct (f (inner p)) as [[e|] s1]; simpl; try reflexivity;
    destruct (i >=? wrapInt (attempts - 1)); try reflexivity.
  apply (IH (i + 1) (probe_Sleep Sleep sleep (probe_Warnw Warnw _ _ (mkProbe s1 _)))).
Qed.

Lemma probed_loop_trace budget : ∀ i (p : Probe St),
  wrapInt (attempts - 1) - i ≤ Z.of_nat budget →
  ∃ failures final,
    let '(r, p') :=
      retry_loop (probe_Sleep Sleep) (probe_Warnw Warnw) attempts sleep
        (probe_call f) budget i p in
    events p' = events p ++ attempts_trace sleep failures final ∧
    r = final ∧
    Z.of_nat (length failures) ≤ Z.max 0 (wrapInt (attempts - 1) - i) ∧
    (final ≠ None →
     Z.of_nat (length failures) = Z.max 0 (wrapInt (attempts - 1) - i)).
Proof.
  induction budget as [|b IH]; intros i p Hb; simpl; unfold probe_call;
    destruct (f (inner p)) as [[e|] s1]; simpl.
  - destruct (Z.geb_spec i (wrapInt (attempts - 1))); [|lia].
    exists [], (Some e). simpl. repeat split; try lia. 
  - exists [], None. simpl. repeat split; try lia; try congruence.
  - destruct (Z.geb_spec i (wrapInt (attempts - 1))) as [Hge|Hlt].
    + exists [], (Some e). simpl. repeat split; lia.
    + set (p2 := probe_Sleep _ _ _).
      destruct (IH (i + 1) p2 ltac:(lia)) as (fs & fin & H).
      exists (e :: fs), fin.
      destruct (retry_loop _ _ _ _ _ _ _ p2) as [r p'].
      destruct H as (Hev & Hr & Hlen & Hfull).
      repeat split; try assumption.
      * rewrite Hev. subst p2. simpl. unfold attempts_trace. simpl.
        rewrite <- !app_assoc. reflexivity.
      * simpl length. lia.
      * intros Hne. specialize (Hfull Hne). simpl length. lia.
  - exists [], None. simpl. repeat split; try lia; try congruence.
Qed.

End RetryFacts.

(** ** retry: attempts, sleeps and result *)

(** C4.  For an attempt count [n] of at least 1, [retry n d f] calls [f]
    at most [n] times with a sleep of [d] after each failure but the
    last; when a call succeeds it returns nil at once, after that call;
    when all [n] calls fail it returns one error whose text names [n]
    and ends with the text of the last failure. *)
Theorem retry_attempts_and_result {St : Type}
    (Sleep : Z → St → St)
    (Warnw : string → list (string * string) → St → St)
    (n d : Z) (f : St → option error * St) (s : St) :
  1 ≤ n ≤ maxInt →
  ∃ failures final,
    let '(r, p) := probed_retry Sleep Warnw n d f s in
    retry Sleep Warnw n d f s = (r, inner p) ∧
    events p = attempts_trace d failures final ∧
    (count_calls (events p) ≤ Z.to_nat n)%nat ∧
    match final with
    | None => r = None
    | Some e =>
        count_calls (events p) = Z.to_nat n ∧
        r = Some (plainError
                    ("after " +:+ pretty n +:+ " attempts, last error: "
                     +:+ Error e))
    end.
Proof.
  intros Hn.
  assert (Hw : wrapInt (n - 1) = n - 1)
    by (apply wrapInt_small; unfold minInt, maxInt in *; lia).
  pose proof (probed_loop_trace Sleep Warnw n d f
                (Z.to_nat (wrapInt (n - 1))) 0 (mkProbe s [])) as Ht.
  pose proof (probed_loop_inner Sleep Warnw n d f
                (Z.to_nat (wrapInt (n - 1))) 0 (mkProbe s [])) as Hi.
  destruct Ht as (failures & final & Ht); [lia|].
  exists failures, final.
  unfold probed_retry, retry. simpl in Hi. rewrite Hi. clear Hi.
  destruct (retry_loop _ _ _ _ _ _ _ _) as [r p].
  destruct Ht as (Hev & Hr & Hlen & Hfull). simpl in Hev. subst r.
  rewrite Hw in *.
  destruct final as [e|]; simpl.
  - rewrite Hev, count_calls_attempts_trace.
    specialize (Hfull ltac:(congruence)).
    repeat split; try lia.
    unfold retry_error, Errorf_s. by rewrite !append_assoc.
  - rewrite Hev, count_calls_attempts_trace. repeat split; lia.
Qed.

Lemma retry_attempts_and_result_witness :
  1 ≤ 3 ≤ maxInt ∧
  ∃ failures final,
    let '(r, p) := probed_retry (λ _ c, c) (λ _ _ c, c) 3 (2 * Second) fails_twice 0%nat in
    retry (λ _ c, c) (λ _ _ c, c) 3 (2 * Second) fails_twice 0%nat = (r, inner p) ∧
    events p = attempts_trace (2 * Second) failures final ∧
    (count_calls (events p) ≤ Z.to_nat 3)%nat ∧
    match final with
    | None => r = None
    | Some e =>
        count_calls (events p) = Z.to_nat 3 ∧
        r = Some (plainError
                    ("after " +:+ pretty 3 +:+ " attempts, last error: "
                     +:+ Error e))
    end.
Proof.
  split; [unfold maxInt; lia|].
  apply (retry_attempts_and_result (λ _ c, c) (λ _ _ c, c) 3 (2 * Second)
           fails_twice 0%nat).
  unfold maxInt; lia.
Defined.

Example retry_fails_twice_then_succeeds (d : Z) :
  probed_retry (λ _ c, c) (λ _ _ c, c) 3 d fails_twice 0%nat =
  (None,
   mkProbe 3%nat
     [Called (Some (errors_New "not yet")); Slept d;
      Called (Some (errors_New "not yet")); Slept d;
      Called None]).
Proof. reflexivity. Qed.

Example retry_always_fails (d : Z) :
  fst (probed_retry (λ _ c, c) (λ _ _ c, c) 3 d always_fails 0%nat) =
  Some (plainError "after 3 attempts, last error: failure 2") ∧
  count_calls (events (snd (probed_retry (λ _ c, c) (λ _ _ c, c) 3 d always_fails 0%nat))) = 3%nat.
Proof. split; reflexivity. Qed.

Section RetryDone.

Context {St : Type}.
Variable done : St → bool.
Variable Sleep : Z → St → St.
Variable Warnw : string → list (string * string) → St → St.
Variables attempts sleep : Z.
Variable f : St → option error * St.
Hypothesis f_fails : ∀ s, done s = true → fst (f s) ≠ None ∧ done (snd (f s)) = true.
Hypothesis Sleep_done : ∀ d s, done s = true → done (Sleep d s) = true.
Hypothesis Warnw_done : ∀ msg kv s, done s = true → done (Warnw msg kv s) = true.

Lemma probed_loop_done budget : ∀ i (p : Probe St),
  done (inner p) = true →
  fst (retry_loop (probe_Sleep Sleep) (probe_Warnw Warnw) attempts sleep
         (probe_call f) budget i p) ≠ None.
Proof.
  induction budget as [|b IH]; intros i p Hd; simpl; unfold probe_call;
    destruct (f_fails _ Hd) as [Hf Hd'];
    destruct (f (inner p)) as [[e|] s1]; simpl in *; try congruence;
    destruct (i >=? wrapInt (attempts - 1)); simpl; try congruence.
  apply IH. simpl. auto.
Qed.

End RetryDone.

(** C5, as stated, fails: with the context done from the start and [f]
    failing for that reason on every call, [retry 3] calls [f] three
    times. *)
Lemma retry_keeps_calling_when_cancelled : ¬ aborts_once_cancelled.
Proof.
  intros H.
  specialize (H unit (λ _, true) (λ _ s, s) (λ _ _ s, s)
                (λ s, (Some (errors_New "context canceled"), s))
                3 (2 * Second) tt).
  vm_compute in H.
  specialize (H (λ _ _, eq_refl) (λ _ _ _, eq_refl) (λ _ _ _ _, eq_refl)).
  assert (Hle : (3 ≤ 1)%nat); [|lia].
  apply H; [split; discriminate | reflexivity].
Qed.

(** C5, amended.  [retry] is handed no context and looks at none: it
    stops on the first success or when the attempts are used up.  When
    the context is done and every call of [f] fails while it is, as a
    call that honours the context does, [retry n d f] still calls [f]
    all [n] times and returns the error that names the [n] attempts. *)
Theorem retry_runs_all_attempts_when_cancelled {St : Type}
    (done : St → bool)
    (Sleep : Z → St → St)
    (Warnw : string → list (string * string) → St → St)
    (f : St → option error * St) (n d : Z) (s : St) :
  (∀ s, done s = true → fst (f s) ≠ None ∧ done (snd (f s)) = true) →
  (∀ d s, done s = true → done (Sleep d s) = true) →
  (∀ msg kv s, done s = true → done (Warnw msg kv s) = true) →
  1 ≤ n ≤ maxInt →
  done s = true →
  count_calls (events (snd (probed_retry Sleep Warnw n d f s))) = Z.to_nat n ∧
  ∃ e, fst (retry Sleep Warnw n d f s) = Some (retry_error n e).
Proof.
  intros Hf Hs Hw Hn Hd.
  assert (Hwrap : wrapInt (n - 1) = n - 1)
    by (apply wrapInt_small; unfold minInt, maxInt in *; lia).
  pose proof (probed_loop_trace Sleep Warnw n d f
                (Z.to_nat (wrapInt (n - 1))) 0 (mkProbe s [])) as Ht.
  pose proof (probed_loop_inner Sleep Warnw n d f
                (Z.to_nat (wrapInt (n - 1))) 0 (mkProbe s [])) as Hi.
  pose proof (probed_loop_done done Sleep Warnw n d f Hf Hs Hw
                (Z.to_nat (wrapInt (n - 1))) 0 (mkProbe s []) Hd) as Hne.
  destruct Ht as (failures & final & Ht); [lia|].
  unfold probed_retry, retry. simpl in Hi. rewrite Hi. clear Hi.
  destruct (retry_loop _ _ _ _ _ _ _ _) as [r p].
  destruct Ht as (Hev & Hr & Hlen & Hfull). simpl in *. subst final.
  specialize (Hfull Hne). rewrite Hwrap in *.
  destruct r as [e|]; [|congruence]. simpl.
  rewrite Hev, count_calls_attempts_trace. split; [lia|eauto].
Qed.

Lemma retry_runs_all_attempts_when_cancelled_witness :
  count_calls (events (snd (probed_retry (λ _ s, s) (λ _ _ s, s) 3 (2 * Second)
     (λ s : unit, (Some (errors_New "context canceled"), s)) tt))) = Z.to_nat 3 ∧
  ∃ e, fst (retry (λ _ s, s) (λ _ _ s, s) 3 (2 * Second)
     (λ s : unit, (Some (errors_New "context canceled"), s)) tt) = Some (retry_error 3 e).
Proof.
  apply (retry_runs_all_attempts_when_cancelled (λ _ : unit, true)).
  - intros s _. split; [discriminate | reflexivity].
  - reflexivity.
  - reflexivity.
  - unfold maxInt. lia.
  - reflexivity.
Defined.

(** ** Reading the documents *)





(** ** The sidecar *)

Section SidecarFacts.

Context {E : Env}.

(** *** Blocks that leave part of the state alone *)

Lemma frames_bind {A B} (R : State E → State E → Prop)
    (m : Block E A) (k : A → Block E B) :
  Transitive R → frames R m → (∀ a, frames R (k a)) → frames R (bind m k).
Proof.
  intros HR Hm Hk s. unfold bind. specialize (Hm s).
  destruct (m s) as [[a|err|msg] s1]; simpl in *; try assumption.
  etrans; [exact Hm|]. apply Hk.
Qed.

#[local] Instance quiet_refl : Reflexive (@quiet E).
Proof. by split. Qed.

#[local] Instance quiet_trans : Transitive (@quiet E).
Proof. intros a b c [H1 H2] [H3 H4]. split; congruence. Qed.

#[local] Instance same_links_refl : Reflexive (@same_links E).
Proof. by intros s. Qed.

#[local] Instance same_links_trans : Transitive (@same_links E).
Proof. unfold same_links. intros a b c H1 H2. congruence. Qed.

Lemma frames_ret {A} (R : State E → State E → Prop) (a : A) :
  Reflexive R → frames R (ret a).
Proof. intros HR s. apply HR. Qed.

Lemma frames_return {A} (R : State E → State E → Prop) err :
  Reflexive R → frames R (return_ (A:=A) err).
Proof. intros HR s. apply HR. Qed.

Lemma frames_panic {A} (R : State E → State E → Prop) msg :
  Reflexive R → frames R (panic (A:=A) msg).
Proof. intros HR s. apply HR. Qed.

Lemma frames_gets {A} (R : State E → State E → Prop) (f : State E → A) :
  Reflexive R → frames R (gets f).
Proof. intros HR s. apply HR. Qed.

Lemma frames_check (R : State E → State E → Prop) wrap err :
  Reflexive R → frames R (check wrap err).
Proof. intros HR s. destruct err; apply HR. Qed.

Lemma frames_try {A} (R : State E → State E → Prop) wrap (r : result A) :
  Reflexive R → frames R (try wrap r).
Proof. intros HR s. destruct r; apply HR. Qed.

Lemma quiet_external {A} (op : World E → A * World E) :
  frames (E:=E) quiet (external op).
Proof. intros s. unfold external. by destruct (op (world s)). Qed.

Lemma same_links_external {A} (op : World E → A * World E) :
  frames (E:=E) same_links (external op).
Proof. intros s. unfold external. by destruct (op (world s)). Qed.

Ltac frames_step :=
  first
    [ apply frames_bind; [apply _ | | intros ?]
    | apply quiet_external
    | apply same_links_external
    | apply frames_try; apply _
    | apply frames_check; apply _
    | apply frames_gets; apply _
    | apply frames_ret; apply _
    | apply frames_return; apply _
    | apply frames_panic; apply _
    | match goal with
      | |- frames _ (match ?x with _ => _ end) => destruct x
      | |- frames _ (if ?x then _ else _) => destruct x
      end
    | (intros ?; split; reflexivity)
    | (intros ?; reflexivity) ].

Lemma quiet_registerLink cfg nc r :
  frames (E:=E) quiet (registerLink cfg nc r).
Proof. unfold registerLink, range_routes, first_address. repeat frames_step. Qed.

Lemma quiet_applyConfig cfg link :
  frames (E:=E) quiet (applyConfig cfg link).
Proof. unfold applyConfig. repeat frames_step. Qed.

Lemma same_links_applyConfig cfg link :
  frames (E:=E) same_links (applyConfig cfg link).
Proof. unfold applyConfig. repeat frames_step. Qed.

(** *** The attach *)

Lemma attach_times_cons (c : CniCall E) cs took :
  call_op c = CniAdd took → attach_times (c :: cs) = took :: attach_times cs.
Proof. intros H. unfold attach_times. simpl. unfold attach_time. by rewrite H. Qed.

Lemma retry_elapsed_cons d t times :
  times ≠ [] →
  retry_elapsed d (t :: times) = t + Z.max 0 d + retry_elapsed d times.
Proof.
  intros Hne. unfold retry_elapsed. simpl.
  destruct times; [done|]. simpl length. lia.
Qed.

Lemma retry_loop_attach nc r attempts d budget : ∀ i (s : State E),
  wrapInt (attempts - 1) - i ≤ Z.of_nat budget →
  ∃ adds,
    let '(res, s') := retry_loop Sleep Warnw attempts d (cniAdd nc r) budget i s in
    self s' = self s ∧
    cniCalls s' = cniCalls s ++ adds ∧
    Forall (is_attach nc r (activeLinks (self s))) adds ∧
    length (attach_times adds) = length adds ∧
    (1 ≤ length adds)%nat ∧
    Z.of_nat (length adds) ≤ Z.max 0 (wrapInt (attempts - 1) - i) + 1 ∧
    clock s' = clock s + retry_elapsed d (attach_times adds) ∧
    call_result <$> last adds = Some res ∧
    (res ≠ None →
     Z.of_nat (length adds) = Z.max 0 (wrapInt (attempts - 1) - i) + 1).
Proof.
  induction budget as [|b IH]; intros i s Hb; simpl; unfold cniAdd at 1;
    destruct (AddNetworkList E nc r (world s)) as [[e|] w] eqn:Hadd; simpl.
  - destruct (Z.geb_spec i (wrapInt (attempts - 1))) as [Hge|Hlt]; [|lia].
    eexists [_]. simpl. repeat split; try lia; try reflexivity.
    + repeat constructor. by eexists.
    + unfold retry_elapsed; simpl; lia.
  - eexists [_]. simpl. repeat split; try lia; try reflexivity; try congruence.
    + repeat constructor. by eexists.
    + unfold retry_elapsed; simpl; lia.
  - destruct (Z.geb_spec i (wrapInt (attempts - 1))) as [Hge|Hlt].
    + eexists [_]. simpl. repeat split; try lia; try reflexivity.
      * repeat constructor. by eexists.
      * unfold retry_elapsed; simpl; lia.
    + match goal with |- context [retry_loop _ _ _ _ _ _ _ ?s2] =>
        destruct (IH (i + 1) s2 ltac:(lia)) as (adds & H);
        destruct (retry_loop Sleep Warnw attempts d (cniAdd nc r) b (i + 1) s2)
          as [res s'] end.
      destruct H as (Hself & Hcalls & Hall & Hlen & Hone & Hmax & Hclock & Hlast & Hfull).
      simpl in *.
      eexists (_ :: adds). repeat split.
      * exact Hself.
      * rewrite Hcalls, <- app_assoc. reflexivity.
      * constructor; [by eexists | exact Hall].
      * simpl. by rewrite Hlen.
      * simpl. lia.
      * simpl length. lia.
      * rewrite Hclock. erewrite attach_times_cons by reflexivity.
        rewrite retry_elapsed_cons; [lia|].
        intros Hnil. rewrite Hnil in Hlen. simpl in Hlen. lia.
      * rewrite <- Hlast. destruct adds; [simpl in Hone; lia|reflexivity].
      * intros Hne. specialize (Hfull Hne). simpl length. lia.
  - eexists [_]. simpl. repeat split; try lia; try reflexivity; try congruence.
    + repeat constructor. by eexists.
    + unfold retry_elapsed; simpl; lia.
Qed.

Lemma attach_spec nc r (s : State E) :
  ∃ adds,
    let '(res, s') := attach nc r s in
    let elapsed := retry_elapsed (2 * Second) (attach_times adds) in
    self s' = self s ∧
    cniCalls s' = cniCalls s ++ adds ∧
    Forall (is_attach nc r (activeLinks (self s))) adds ∧
    length (attach_times adds) = length adds ∧
    (1 ≤ length adds ≤ 3)%nat ∧
    (res = Return (Some (errors_New "timeout waiting on cninet.AddNetworkList")) ∧
     30 * Second ≤ elapsed
     ∨
     elapsed ≤ 30 * Second ∧
     match last adds with
     | Some c =>
         match call_result c with
         | None => res = Next tt
         | Some e =>
             length adds = 3%nat ∧
             res = Return (Some (Errorf_w "failed to add network through cni plugin: "
                                   (retry_error 3 e)))
         end
     | None => False
     end).
Proof.
  destruct (retry_loop_attach nc r 3 (2 * Second)
              (Z.to_nat (wrapInt (3 - 1))) 0 s) as (adds & H).
  { rewrite wrapInt_small by (unfold minInt, maxInt; lia). lia. }
  exists adds. unfold attach, retry.
  destruct (retry_loop _ _ _ _ _ _ _ _) as [res s1].
  destruct H as (Hself & Hcalls & Hall & Hlen & Hone & Hmax & Hclock & Hlast & Hfull).
  rewrite wrapInt_small in Hmax, Hfull by (unfold minInt, maxInt; lia).
  assert (Hel : clock s1 - clock s = retry_elapsed (2 * Second) (attach_times adds))
    by lia.
  set (elapsed := retry_elapsed (2 * Second) (attach_times adds)) in *.
  assert (Hsel :
    (elapsed <? 30 * Second) || ((elapsed =? 30 * Second) && negb (select_takes_timer E))
      = true ∧ elapsed ≤ 30 * Second
    ∨ (elapsed <? 30 * Second) || ((elapsed =? 30 * Second) && negb (select_takes_timer E))
      = false ∧ 30 * Second ≤ elapsed).
  { destruct (Z.ltb_spec elapsed (30 * Second)); simpl; [left; split; [done|lia]|].
    destruct (Z.eqb_spec elapsed (30 * Second)); simpl; [|right; split; [done|lia]].
    destruct (select_takes_timer E); simpl; [right|left]; split; done || lia. }
  destruct (last adds) as [c|] eqn:Hc; simpl in Hlast; [|done].
  injection Hlast as Hres.
  destruct res as [e|]; simpl; rewrite Hel;
    destruct Hsel as [[-> Hle] | [-> Hge]]; simpl;
    split_and!; try assumption; try lia.
  - right. split; [exact Hle|]. rewrite Hres. split; [|reflexivity].
    specialize (Hfull ltac:(congruence)). lia.
  - left. by split.
  - right. split; [exact Hle|]. by rewrite Hres.
  - left. by split.
Qed.

(** *** The registration *)

Ltac run_block :=
  repeat
    (simpl;
     match goal with
     | |- context [match ?x with _ => _ end] =>
         lazymatch x with
         | context [match _ with _ => _ end] => fail
         | _ => destruct x eqn:?
         end
     end).

Lemma registerLink_links cfg nc r (s : State E) :
  let '(res, s') := registerLink cfg nc r s in
  match res with
  | Next link =>
      activeLinks (self s') = <[network.Network cfg := link]> (activeLinks (self s)) ∧
      rt link = r ∧ netconf link = nc ∧ IPv6 link = None
  | _ => activeLinks (self s') = activeLinks (self s)
  end.
Proof.
  unfold registerLink, bind, external, try, check, range_routes, first_address,
    storeExternalRouting, storeActiveLink, modify, ret, return_, panic.
  run_block; try reflexivity; simplify_eq; simpl; try done.
Qed.

(** *** The shape of a run of [configure] *)

Lemma disableNetwork_unfold {A} cfg link (s : State E) :
  disableNetwork (A:=A) cfg link s =
  match link with
  | None => (Return None, s)
  | Some l =>
      match detached l s with
      | (Some e, s1) => (Return (Some (Errorf_w "when 6: " e)), s1)
      | (None, s1) => (Return None, unlinked (network.Network cfg) s1)
      end
  end.
Proof.
  unfold disableNetwork, detached, bind, cniDel, check, deleteActiveLink, modify,
    return_, ret, unlinked.
  destruct link as [l|]; [|reflexivity].
  destruct (DelNetworkList E _ _ _) as [[e|] w]; reflexivity.
Qed.

Lemma connect_unfold {B} cfg (k : k8sLink E → Block E B) (s : State E) :
  bind (connect cfg) k s =
  match network.IPv6 cfg with
  | Some _ => (Return (Some (errors_New "ipv6 not supported")), s)
  | None =>
      match connectConfig cfg (self s) with
      | Err e =>
          (Return (Some (Errorf_w "failed to generate new network config list: " e)), s)
      | Ok nc =>
          match attach nc (runtimeConf (self s)) s with
          | (Next _, s1) => bind (registerLink cfg nc (runtimeConf (self s))) k s1
          | (Return err, s1) => (Return err, s1)
          | (Panic msg, s1) => (Panic msg, s1)
          end
      end
  end.
Proof.
  unfold connect, bind at 1.
  destruct (network.IPv6 cfg); [reflexivity|].
  unfold bind, gets, try, ret, return_. simpl.
  destruct (connectConfig cfg (self s)); [|reflexivity].
  destruct (attach _ _ s) as [[[]|?|?] ?]; reflexivity.
Qed.

Lemma disconnect_unfold cfg link (s : State E) :
  disconnectOnAddressChange cfg link s =
  match link with
  | None => (Next None, s)
  | Some l =>
      match addressChange cfg l s with
      | (Next true, _) =>
          match detached l s with
          | (Some e, s1) => (Return (Some (Errorf_w "when 5: " e)), s1)
          | (None, s1) => (Next None, unlinked (network.Network cfg) s1)
          end
      | (Next false, _) => (Next (Some l), s)
      | (Return err, _) => (Return err, s)
      | (Panic msg, _) => (Panic msg, s)
      end
  end.
Proof.
  destruct link as [l|]; [|reflexivity].
  unfold disconnectOnAddressChange, addressChange, addressDiffers, detached, bind,
    cniDel, check, deleteActiveLink, modify, return_, ret, panic, unlinked.
  destruct (network.IPv6 cfg), (IPv6 l), (network.IPv4 cfg), (IPv4 l); simpl;
    repeat match goal with |- context [negb ?b] => destruct b; simpl end;
    try reflexivity;
    destruct (DelNetworkList E _ _ _) as [[e|] w]; reflexivity.
Qed.

Lemma configure_unfold cfg (s : State E) :
  configure cfg s =
  let link := activeLinks (self s) !! network.Network cfg in
  if negb (network.Enable cfg) then disableNetwork cfg link s
  else
    match disconnectOnAddressChange cfg link s with
    | (Next (Some l), s1) => applyConfig cfg l s1
    | (Next None, s1) => bind (connect cfg) (applyConfig cfg) s1
    | (Return err, s1) => (Return err, s1)
    | (Panic msg, s1) => (Panic msg, s1)
    end.
Proof.
  unfold configure, bind at 1, gets. simpl.
  destruct (negb (network.Enable cfg)); [reflexivity|].
  unfold bind at 1.
  destruct (disconnectOnAddressChange _ _ s) as [[[l|]|?|?] s1]; reflexivity.
Qed.

Lemma quiet_after cfg nc r :
  frames (E:=E) quiet (bind (registerLink cfg nc r) (applyConfig cfg)).
Proof.
  apply frames_bind; [apply _|apply quiet_registerLink|].
  intros link. apply quiet_applyConfig.
Qed.

(** What a connect that starts in [s1] adds to the calls. *)
Lemma connect_calls cfg (s1 : State E) :
  let '(res, s') := bind (connect cfg) (applyConfig cfg) s1 in
  ∃ adds,
    cniCalls s' = cniCalls s1 ++ adds ∧
    (adds = [] → activeLinks (self s') = activeLinks (self s1)) ∧
    (adds ≠ [] →
     ∃ nc,
       let elapsed := retry_elapsed (2 * Second) (attach_times adds) in
       Forall (is_attach nc (runtimeConf (self s1)) (activeLinks (self s1))) adds ∧
       length (attach_times adds) = length adds ∧
       (length adds ≤ 3)%nat ∧
       (30 * Second < elapsed →
        res = Return (Some (errors_New "timeout waiting on cninet.AddNetworkList"))) ∧
       (elapsed < 30 * Second →
        ∀ c e, last adds = Some c → call_result c = Some e →
          length adds = 3%nat ∧
          res = Return (Some (Errorf_w "failed to add network through cni plugin: "
                                (retry_error 3 e))))).
Proof.
  rewrite connect_unfold.
  destruct (network.IPv6 cfg).
  { exists []. rewrite app_nil_r. by repeat split. }
  destruct (connectConfig cfg (self s1)) as [nc|e].
  2: { exists []. rewrite app_nil_r. by repeat split. }
  destruct (attach_spec nc (runtimeConf (self s1)) s1) as (adds & Hat).
  destruct (attach nc (runtimeConf (self s1)) s1) as [ra s2].
  destruct Hat as (Hself & Hcalls & Hall & Hlen & Hn & Hsel).
  assert (Hne : adds ≠ []) by (intros ->; simpl in Hn; lia).
  assert (Hend : ∃ res s',
    match ra with
    | Next _ => bind (registerLink cfg nc (runtimeConf (self s1))) (applyConfig cfg) s2
    | Return err => (Return err, s2)
    | Panic msg => (Panic msg, s2)
    end = (res, s') ∧ cniCalls s' = cniCalls s2 ∧
    (∀ err, ra = Return err → res = Return err)).
  { destruct ra as [[]|err|msg].
    - pose proof (quiet_after cfg nc (runtimeConf (self s1)) s2) as [Hq _].
      destruct (bind (registerLink _ _ _) _ s2) as [res s'].
      exists res, s'. by split_and!.
    - eexists _, _. split_and!; [reflexivity|reflexivity|].
      by intros ? [= ->].
    - eexists _, _. by split_and!. }
  destruct Hend as (res & s' & -> & Hq & Hret).
  exists adds. split; [congruence|]. split; [done|].
  intros _. exists nc. cbv zeta. split_and!; try assumption; try lia.
  - intros Hl. destruct Hsel as [[-> _] | [Hle _]]; [|lia]. by apply Hret.
  - intros Hl c e Hc He. destruct Hsel as [[_ Hge] | [_ Hlast]]; [lia|].
    rewrite Hc, He in Hlast. destruct Hlast as [Hthree ->].
    split; [exact Hthree|]. by apply Hret.
Qed.

Lemma detached_spec (l : k8sLink E) (s : State E) :
  let '(err, s1) := detached l s in
  self s1 = self s ∧ clock s1 = clock s ∧
  cniCalls s1 =
    cniCalls s ++ [mkCniCall CniDel (netconf l) (rt l) err (activeLinks (self s))].
Proof. unfold detached. by destruct (DelNetworkList E _ _ _). Qed.

Lemma configure_run_calls cfg (s : State E) : run_calls cfg s (configure cfg s).
Proof.
  rewrite configure_unfold. cbv zeta.
  destruct (activeLinks (self s) !! network.Network cfg) as [l|] eqn:Hl;
    destruct (network.Enable cfg); cbn [negb].
  - (* online, enabled *)
    rewrite disconnect_unfold.
    destruct (addressChange cfg l s) as [[[|]|?|?] ?].
    + pose proof (detached_spec l s) as Hd.
      destruct (detached l s) as [[e|] s1]; destruct Hd as (Hself & Hclock & Hcalls).
      * exists [mkCniCall CniDel (netconf l) (rt l) (Some e) (activeLinks (self s))], [].
        simpl. split_and!; [done| |done].
        exists l. split_and!; [done|done|]. intros _. by rewrite Hself.
      * pose proof (connect_calls cfg (unlinked (network.Network cfg) s1)) as Hc.
        destruct (bind (connect cfg) (applyConfig cfg) _) as [res s'].
        destruct Hc as (adds & Hcalls' & Hsame & Hadds).
        exists [mkCniCall CniDel (netconf l) (rt l) None (activeLinks (self s))], adds.
        simpl in *. rewrite Hself in *. split_and!.
        -- rewrite Hcalls', Hcalls, <- app_assoc. reflexivity.
        -- exists l. split_and!; [done|done|done].
        -- exact Hadds.
    + pose proof (quiet_applyConfig cfg l s) as [Hq _].
      pose proof (same_links_applyConfig cfg l s) as Hs.
      destruct (applyConfig cfg l s) as [res s']. simpl in *.
      exists [], []. rewrite app_nil_r. split_and!; [done| |done].
      intros l' _. done.
    + exists [], []. rewrite app_nil_r. simpl. split_and!; done.
    + exists [], []. rewrite app_nil_r. simpl. split_and!; done.
  - (* online, disabled *)
    rewrite disableNetwork_unfold.
    pose proof (detached_spec l s) as Hd.
    destruct (detached l s) as [[e|] s1]; destruct Hd as (Hself & Hclock & Hcalls).
    + exists [mkCniCall CniDel (netconf l) (rt l) (Some e) (activeLinks (self s))], [].
      simpl. split_and!; [done| |done].
      exists l. split_and!; [done|done|]. intros _. by rewrite Hself.
    + exists [mkCniCall CniDel (netconf l) (rt l) None (activeLinks (self s))], [].
      simpl. split_and!; [done| |done].
      exists l. split_and!; done.
  - (* offline, enabled *)
    rewrite disconnect_unfold.
    pose proof (connect_calls cfg s) as Hc.
    destruct (bind (connect cfg) (applyConfig cfg) s) as [res s'].
    destruct Hc as (adds & Hcalls & Hsame & Hadds).
    exists [], adds. simpl. split_and!; [done|congruence|].
    rewrite delete_id by done. exact Hadds.
  - (* offline, disabled *)
    rewrite disableNetwork_unfold.
    exists [], []. rewrite app_nil_r. simpl. split_and!; done.
Qed.

Lemma ConfigureNetwork_run_calls cfg (s : State E) :
  run_calls cfg s (ConfigureNetwork cfg s).
Proof.
  unfold ConfigureNetwork, skipConfig.
  destruct (negb _); exists [], []; rewrite app_nil_r; simpl; split_and!; done.
Qed.

(** *** A connect that goes through *)

Lemma attach_first_try nc r (s : State E) w1 :
  AddNetworkList E nc r (world s) = (None, w1) →
  AddNetworkList_time E nc r (world s) < 30 * Second →
  attach nc r s =
  (Next tt,
   mkState (self s) w1 (clock s + AddNetworkList_time E nc r (world s))
     (cniCalls s ++
        [mkCniCall (CniAdd (AddNetworkList_time E nc r (world s))) nc r None
           (activeLinks (self s))])
     (logs s)).
Proof.
  intros Hadd Htime. unfold attach, retry.
  change (Z.to_nat (wrapInt (3 - 1))) with 2%nat.
  simpl. unfold cniAdd. rewrite Hadd. simpl.
  destruct (Z.ltb_spec (clock s + AddNetworkList_time E nc r (world s) - clock s)
              (30 * Second)); [reflexivity|lia].
Qed.

Lemma registerLink_clean cfg nc r (s : State E) l w2 routes w3 h w4 addrs w5 :
  LinkByName E (dataNetworkIfname E) (world s) = (Ok l, w2) →
  getK8sRoutes E l w2 = ((Some routes, None), w3) →
  NewNetlinkLink E l w3 = (Ok h, w4) →
  ListV4 E h w4 = (Ok addrs, w5) →
  let warned :=
    if Nat.eqb (length addrs) 1 then logs s
    else logs s ++ [mkWarning ("Found " +:+ pretty (length addrs) +:+ " v4 addresses, expected just 1") []] in
  let routing := <[dataNetworkIfname E := Some routes]> (externalRouting (self s)) in
  registerLink cfg nc r s =
  match addrs with
  | [] =>
      (Panic "index out of range [0] with length 0",
       mkState (set_externalRouting routing (self s)) w5 (clock s) (cniCalls s) warned)
  | first :: _ =>
      let link := mkLink h (Some first) None r nc in
      (Next link,
       mkState
         (set_activeLinks (<[network.Network cfg := link]> (activeLinks (self s)))
            (set_externalRouting routing (self s)))
         w5 (clock s) (cniCalls s) warned)
  end.
Proof.
  intros H1 H2 H3 H4.
  unfold registerLink, bind, external, try, check, range_routes, first_address,
    storeExternalRouting, storeActiveLink, modify, ret, return_, panic.
  rewrite H1. simpl. rewrite H2. simpl. rewrite H3. simpl. rewrite H4. simpl.
  destruct addrs as [|first [|second rest]]; reflexivity.
Qed.

(** *** The skip *)

Lemma skip_taken (cfg : network.Config E) (s : State E) :
  network.Network cfg = defaultDataNetwork E →
  ConfigureNetwork cfg s = (Return None, s).
Proof.
  intros HN. unfold ConfigureNetwork. rewrite HN, String.eqb_refl. reflexivity.
Qed.

(** C1.  For a configuration that names the default data network,
    [ConfigureNetwork] returns nil right after the check of the name,
    and the state it returns is the state it was given: no CNI call is
    recorded, no time has passed, the world of the collaborators (links,
    shaping, rules, routes) is untouched, and so are the active-link
    table and the external-routing table.  Nothing of [configure], the
    statements after the skip, takes part in the result. *)
Theorem ConfigureNetwork_skips (cfg : network.Config E) (s : State E) :
  network.Network cfg = defaultDataNetwork E →
  ConfigureNetwork cfg s = (Return None, s).
Proof.
  intros HN. unfold ConfigureNetwork.
  rewrite HN, String.eqb_refl. cbn [negb].
  unfold skipConfig. reflexivity.
Qed.

(** *** IPv6 *)

(** C2, amended.  For a configuration with an IPv6 address on the
    default data network, [ConfigureNetwork] returns nil at the skip and
    leaves the state as it was (no CNI call, tables unchanged).  In the
    statements after the skip the IPv6 check sits in the connect branch:
    with [Enable] true and no link online, they return the error
    [ipv6 not supported] with the state as it was; with [Enable] false
    they never reach the check: they return nil when no link is online,
    and otherwise make the detach call and return nil or the detach
    error. *)
Theorem ipv6_is_rejected_on_connect_only (cfg : network.Config E) (s : State E) a6 :
  network.Network cfg = defaultDataNetwork E →
  network.IPv6 cfg = Some a6 →
  let N := network.Network cfg in
  let links := activeLinks (self s) in
  ConfigureNetwork cfg s = (Return None, s) ∧
  (network.Enable cfg = true → links !! N = None →
   configure cfg s = (Return (Some (errors_New "ipv6 not supported")), s)) ∧
  (network.Enable cfg = false → links !! N = None →
   configure cfg s = (Return None, s)) ∧
  (network.Enable cfg = false → ∀ l, links !! N = Some l →
   let '(res, s') := configure cfg s in
   let err := fst (DelNetworkList E (netconf l) (rt l) (world s)) in
   cniCalls s' = cniCalls s ++ [mkCniCall CniDel (netconf l) (rt l) err links] ∧
   res = Return (Errorf_w "when 6: " <$> err)).
Proof.
  intros HN H6 N links. split_and!.
  - by apply skip_taken.
  - intros Hen Hoff. rewrite configure_unfold. cbv zeta.
    fold N links. rewrite Hoff, Hen. cbn [negb].
    rewrite disconnect_unfold, connect_unfold, H6. reflexivity.
  - intros Hen Hoff. rewrite configure_unfold. cbv zeta.
    fold N links. rewrite Hoff, Hen. reflexivity.
  - intros Hen l Hon. rewrite configure_unfold. cbv zeta.
    fold N links. rewrite Hon, Hen. cbn [negb].
    rewrite disableNetwork_unfold. unfold detached. fold links.
    destruct (DelNetworkList E _ _ _) as [[e|] w]; simpl; by rewrite app_nil_r || done.
Qed.

(** *** Disabling *)

(** C9, amended.  Disabling the default data network when no link is
    online returns nil, makes no CNI call and leaves the whole state,
    the active-link table with it, as it was; this holds for
    [ConfigureNetwork] and for the statements after its skip.  When a
    link is online, [ConfigureNetwork] returns at the skip and leaves the
    link in the table, without a detach; the statements after the skip
    make exactly one detach call, for that link, and then either remove
    the link from the table and return nil, when the detach succeeded,
    or keep it and return the detach error. *)
Theorem disable_is_idempotent (cfg : network.Config E) (s : State E) :
  network.Network cfg = defaultDataNetwork E →
  network.Enable cfg = false →
  let N := network.Network cfg in
  let links := activeLinks (self s) in
  ConfigureNetwork cfg s = (Return None, s) ∧
  (links !! N = None → configure cfg s = (Return None, s)) ∧
  (∀ l, links !! N = Some l →
   let '(res, s') := configure cfg s in
   let err := fst (DelNetworkList E (netconf l) (rt l) (world s)) in
   cniCalls s' = cniCalls s ++ [mkCniCall CniDel (netconf l) (rt l) err links] ∧
   match err with
   | None => res = Return None ∧ activeLinks (self s') = delete N links
   | Some e =>
       res = Return (Some (Errorf_w "when 6: " e)) ∧ activeLinks (self s') = links
   end).
Proof.
  intros HN Hen N links. split_and!.
  - by apply skip_taken.
  - intros Hoff. rewrite configure_unfold. cbv zeta.
    fold N links. rewrite Hoff, Hen. reflexivity.
  - intros l Hon. rewrite configure_unfold. cbv zeta.
    fold N links. rewrite Hon, Hen. cbn [negb].
    rewrite disableNetwork_unfold. unfold detached. fold links.
    destruct (DelNetworkList E _ _ _) as [[e|] w]; simpl; done.
Qed.

(** *** Connecting *)

Lemma logs_applyConfig (cfg : network.Config E) link (s : State E) :
  logs (snd (applyConfig cfg link s)) = logs s.
Proof.
  unfold applyConfig, bind, external, check, gets, return_, ret.
  repeat
    (simpl;
     match goal with
     | |- context [match ?x with _ => _ end] =>
         lazymatch x with
         | context [match _ with _ => _ end] => fail
         | _ => destruct x eqn:?
         end
     end); reflexivity.
Qed.

Lemma configure_clean (cfg : network.Config E) (s : State E) nc h addrs :
  network.Enable cfg = true →
  network.IPv6 cfg = None →
  activeLinks (self s) !! network.Network cfg = None →
  connects_cleanly cfg s nc h addrs →
  let r := runtimeConf (self s) in
  let call :=
    mkCniCall (CniAdd (AddNetworkList_time E nc r (world s))) nc r None
      (activeLinks (self s)) in
  let warned :=
    if Nat.eqb (length addrs) 1 then logs s
    else logs s ++ [mkWarning ("Found " +:+ pretty (length addrs) +:+ " v4 addresses, expected just 1") []] in
  let '(res, s') := configure cfg s in
  cniCalls s' = cniCalls s ++ [call] ∧
  logs s' = warned ∧
  match addrs with
  | [] =>
      res = Panic "index out of range [0] with length 0" ∧
      activeLinks (self s') = activeLinks (self s)
  | first :: _ =>
      let link := mkLink h (Some first) None r nc in
      activeLinks (self s') = <[network.Network cfg := link]> (activeLinks (self s)) ∧
      ∃ s2, (res, s') = applyConfig cfg link s2
  end.
Proof.
  intros Hen H6 Hoff (w1 & l & w2 & routes & w3 & w4 & w5 & Hnc & Hadd & Htime & H1 & H2 & H3 & H4).
  intros r call warned.
  rewrite configure_unfold. cbv zeta. rewrite Hoff, Hen. cbn [negb].
  rewrite disconnect_unfold, connect_unfold, H6, Hnc.
  rewrite (attach_first_try _ _ _ w1 Hadd Htime).
  unfold bind at 1.
  erewrite (registerLink_clean cfg nc (runtimeConf (self s)) _ l w2 routes w3 h w4 addrs w5);
    [|exact H1|exact H2|exact H3|exact H4].
  destruct addrs as [|first rest].
  - simpl. done.
  - cbv beta iota zeta.
    match goal with |- context [applyConfig cfg ?lk ?st] =>
      pose proof (quiet_applyConfig cfg lk st) as [Hq _];
      pose proof (same_links_applyConfig cfg lk st) as Hs;
      pose proof (logs_applyConfig cfg lk st) as Hlogs;
      destruct (applyConfig cfg lk st) as [res s'] eqn:Hrun
    end.
    subst r call warned. unfold same_links in Hs. simpl in *.
    split_and!; [congruence|congruence|congruence|].
    eexists. symmetry. exact Hrun.
Qed.

(** C3, amended.  For a configuration on the default data network with
    [Enable] true, an IPv4 address and no IPv6 address, given when no
    link is online: [ConfigureNetwork] returns nil at the skip, makes no
    CNI call and stores no link.  The statements after the skip build
    the fixed-address configuration list from the printed form of the
    address; when the collaborators let the connect go through at the
    first attempt, they make exactly one CNI call, the attach with that
    list, and the link they store records the first address that
    [ListV4] reports for the new link. *)
Theorem fixed_address_connect (cfg : network.Config E) (s : State E)
    a nc h addrs :
  network.Network cfg = defaultDataNetwork E →
  network.Enable cfg = true →
  network.IPv4 cfg = Some a →
  network.IPv6 cfg = None →
  activeLinks (self s) !! network.Network cfg = None →
  let r := runtimeConf (self s) in
  ConfigureNetwork cfg s = (Return None, s) ∧
  (connects_cleanly cfg s nc h addrs →
   newNetworkConfigList E "ip" (IPNet_String E a) = Ok nc ∧
   let '(res, s') := configure cfg s in
   cniCalls s' =
     cniCalls s ++
       [mkCniCall (CniAdd (AddNetworkList_time E nc r (world s))) nc r None
          (activeLinks (self s))] ∧
   ∀ first rest, addrs = first :: rest →
     activeLinks (self s') !! network.Network cfg =
       Some (mkLink h (Some first) None r nc)).
Proof.
  intros HN Hen H4 H6 Hoff r. split; [by apply skip_taken|].
  intros Hclean. split.
  - destruct Hclean as (? & ? & ? & ? & ? & ? & ? & Hnc & _).
    unfold connectConfig in Hnc. by rewrite H4 in Hnc.
  - pose proof (configure_clean cfg s nc h addrs Hen H6 Hoff Hclean) as H.
    cbv zeta in H. destruct (configure cfg s) as [res s'].
    destruct H as (Hcalls & _ & Hrest). split; [exact Hcalls|].
    intros first rest ->. destruct Hrest as [Hlinks _].
    rewrite Hlinks. apply lookup_insert_eq.
Qed.


(** *** The order of detach and attach *)


(** *** The deadline of the attach *)

(** C6.  The attach of the connect branch makes between one and three
    attach calls, and the time the retry loop needs for them, the calls
    and the two-second sleeps between them taken together, is set
    against one deadline of 30 seconds.  When that time is over the
    deadline the result is the timeout error, however many attempts were
    left; when it is under the deadline the result is that of the retry
    loop: control goes on after a successful call, and after three
    failed calls the error of the loop is returned, wrapped.  A run of
    [ConfigureNetwork], and a run of the statements after its skip, that
    makes attach calls ends accordingly. *)
Theorem attach_deadline_is_overall (cfg : network.Config E) (s : State E)
    (run : Block E Empty_set) :
  run = ConfigureNetwork cfg ∨ run = configure cfg →
  let timeout := errors_New "timeout waiting on cninet.AddNetworkList" in
  let failed e :=
    Errorf_w "failed to add network through cni plugin: " (retry_error 3 e) in
  (∀ nc r (s0 : State E),
     ∃ adds,
       let '(res, s1) := attach nc r s0 in
       let elapsed := retry_elapsed (2 * Second) (attach_times adds) in
       cniCalls s1 = cniCalls s0 ++ adds ∧
       length (attach_times adds) = length adds ∧
       (1 ≤ length adds ≤ 3)%nat ∧
       (30 * Second < elapsed → res = Return (Some timeout)) ∧
       (elapsed < 30 * Second →
        ∃ c, last adds = Some c ∧
             match call_result c with
             | None => res = Next tt
             | Some e => length adds = 3%nat ∧ res = Return (Some (failed e))
             end)) ∧
  (let '(res, s') := run s in
   ∃ dels adds,
     let elapsed := retry_elapsed (2 * Second) (attach_times adds) in
     cniCalls s' = cniCalls s ++ dels ++ adds ∧
     attach_times dels = [] ∧
     length (attach_times adds) = length adds ∧
     (adds ≠ [] →
      (30 * Second < elapsed → res = Return (Some timeout)) ∧
      (elapsed < 30 * Second →
       ∀ c e, last adds = Some c → call_result c = Some e →
         length adds = 3%nat ∧ res = Return (Some (failed e))))).
Proof.
  intros Hrun timeout failed. split.
  - intros nc r s0.
    destruct (attach_spec nc r s0) as (adds & H). exists adds.
    destruct (attach nc r s0) as [res s1].
    destruct H as (_ & Hcalls & _ & Hlen & Hn & Hsel).
    cbv zeta. split_and!; try done; try lia.
    + intros Hl. destruct Hsel as [[-> _] | [Hle _]]; [done|lia].
    + intros Hl. destruct Hsel as [[_ Hge] | [_ Hlast]]; [lia|].
      destruct (last adds) as [c|]; [|done]. by exists c.
  - assert (H : run_calls cfg s (run s)).
    { destruct Hrun as [-> | ->];
        [apply ConfigureNetwork_run_calls | apply configure_run_calls]. }
    destruct (run s) as [res s'].
    destruct H as (dels & adds & Hcalls & Hdels & Hadds).
    exists dels, adds. cbv zeta. split_and!.
    + exact Hcalls.
    + destruct dels as [|d [|]]; [reflexivity| |done].
      destruct Hdels as (l & _ & -> & _). reflexivity.
    + destruct adds as [|c adds']; [reflexivity|].
      by destruct (Hadds ltac:(done)) as (nc & _ & Hlen & _).
    + intros Hne. destruct (Hadds Hne) as (nc & _ & _ & _ & Hlate & Hearly). done.
Qed.

End SidecarFacts.

(** ** newNetworkConfigList *)




(** Why the statement above speaks of strings without a double quote:
    the string is spliced into the document as it is, so a double quote
    in it would end the field early; here the [subnet] field holds ["a"]
    and the [ipam] object has a second field.  No subnet and no printed
    address is such a string, and the callers pass nothing else. *)
Example unescaped_string_changes_the_document :
  newNetworkConfigList friendly "net" injected =
    Ok (netHead +:+ injected +:+ netTail) ∧
  Json.parse (netHead +:+ injected +:+ netTail) ≫= plugin_ipam =
    Some (Json.Obj [("subnet", Json.Str "a"); ("x", Json.Str "b")]) ∧
  Json.Str injected ≠ Json.Str "a".
Proof. split_and!; [reflexivity|vm_compute; reflexivity|discriminate]. Qed.

(** ** The statements on the scenarios *)

Lemma ConfigureNetwork_skips_witness :
  network.Network fixed5 = defaultDataNetwork friendly ∧
  ConfigureNetwork fixed5 (sidecar friendly online5 []) =
    (Return None, sidecar friendly online5 []).
Proof.
  split; [reflexivity|].
  apply (ConfigureNetwork_skips fixed5 (sidecar friendly online5 [])).
  reflexivity.
Defined.

(** C2, as stated, fails: a request for an IPv6 address passes the skip
    and gets nil, not the error; and in the statements after the skip a
    request with [Enable] false and a link online detaches the link and
    returns nil as well. *)
Lemma ipv6_request_is_not_rejected :
  network.IPv6 wants6 = Some addr6 ∧
  ConfigureNetwork wants6 (sidecar friendly ∅ []) =
    (Return None, sidecar friendly ∅ []) ∧
  network.IPv6 off6 = Some addr6 ∧
  fst (configure off6 (sidecar friendly online5 [])) = Return None ∧
  call_op <$> cniCalls (snd (configure off6 (sidecar friendly online5 []))) = [CniDel] ∧
  activeLinks (self (snd (configure off6 (sidecar friendly online5 [])))) = ∅.
Proof. split_and!; reflexivity. Qed.

Lemma ipv6_is_rejected_on_connect_only_witness :
  network.Network wants6 = defaultDataNetwork friendly ∧
  network.IPv6 wants6 = Some addr6 ∧
  ConfigureNetwork wants6 (sidecar friendly ∅ []) =
    (Return None, sidecar friendly ∅ []) ∧
  configure wants6 (sidecar friendly ∅ []) =
    (Return (Some (errors_New "ipv6 not supported")), sidecar friendly ∅ []).
Proof.
  destruct (ipv6_is_rejected_on_connect_only wants6 (sidecar friendly ∅ []) addr6
              eq_refl eq_refl) as (Hskip & Hon & _).
  split_and!; [reflexivity|reflexivity|exact Hskip|].
  apply Hon; reflexivity.
Defined.

(** C3, as stated, fails: the request is answered at the skip, with no
    attach call and no link stored. *)
Lemma fixed_address_request_is_skipped :
  network.Enable fixed5 = true ∧ network.IPv4 fixed5 = Some addr5 ∧
  fst (ConfigureNetwork fixed5 (sidecar friendly ∅ [])) = Return None ∧
  cniCalls (snd (ConfigureNetwork fixed5 (sidecar friendly ∅ []))) = [] ∧
  activeLinks (self (snd (ConfigureNetwork fixed5 (sidecar friendly ∅ [])))) !! "default" = None.
Proof. split_and!; reflexivity. Qed.

Lemma friendly_connects_cleanly :
  connects_cleanly (E:=friendly) fixed5 (sidecar friendly ∅ [])
    (ipHead +:+ "10.0.0.5/24" +:+ ipTail) tt [addr5].
Proof.
  exists [], tt, [], tt, [], [], []. split_and!; try reflexivity.
Defined.

Lemma fixed_address_connect_witness :
  newNetworkConfigList friendly "ip" "10.0.0.5/24" =
    Ok (ipHead +:+ "10.0.0.5/24" +:+ ipTail) ∧
  cniCalls (snd (configure fixed5 (sidecar friendly ∅ []))) =
    [mkCniCall (E:=friendly) (CniAdd 0) (ipHead +:+ "10.0.0.5/24" +:+ ipTail)
       (mkRuntimeConf "c1" "/proc/1/ns/net" "eth1" [] ∅) None ∅] ∧
  activeLinks (self (snd (configure fixed5 (sidecar friendly ∅ [])))) !! "default" =
    Some link5.
Proof.
  destruct (fixed_address_connect (E:=friendly) fixed5 (sidecar friendly ∅ []) addr5
              (ipHead +:+ "10.0.0.5/24" +:+ ipTail) tt [addr5]) as [_ H];
    try reflexivity.
  destruct (H friendly_connects_cleanly) as [Hnc Hrun].
  destruct (configure fixed5 (sidecar friendly ∅ [])) as [res s'].
  destruct Hrun as [Hcalls Hlink].
  split_and!; [exact Hnc|exact Hcalls|exact (Hlink addr5 [] eq_refl)].
Defined.

(** C9, as stated, fails in its second half: with a link online, the
    request to switch the network off is answered at the skip; no
    detach is made and the link stays in the table. *)
Lemma disable_request_is_skipped :
  network.Enable off = false ∧
  activeLinks (self (sidecar friendly online5 [])) !! "default" = Some link5 ∧
  fst (ConfigureNetwork off (sidecar friendly online5 [])) = Return None ∧
  cniCalls (snd (ConfigureNetwork off (sidecar friendly online5 []))) = [] ∧
  activeLinks (self (snd (ConfigureNetwork off (sidecar friendly online5 [])))) !! "default" =
    Some link5.
Proof. split_and!; reflexivity. Qed.

Lemma disable_is_idempotent_witness :
  network.Network off = defaultDataNetwork friendly ∧
  network.Enable off = false ∧
  ConfigureNetwork off (sidecar friendly ∅ []) = (Return None, sidecar friendly ∅ []) ∧
  configure off (sidecar friendly ∅ []) = (Return None, sidecar friendly ∅ []).
Proof.
  destruct (disable_is_idempotent off (sidecar friendly ∅ []) eq_refl eq_refl)
    as (Hskip & Hoff & _).
  split_and!; [reflexivity|reflexivity|exact Hskip|].
  apply Hoff. reflexivity.
Defined.

(** The second half of [disable_is_idempotent] on a link that is online:
    one detach, the link gone, nil returned. *)
Example disable_online_detaches :
  fst (configure off (sidecar friendly online5 [])) = Return None ∧
  cniCalls (snd (configure off (sidecar friendly online5 []))) =
    [mkCniCall (E:=friendly) CniDel (netconf link5) (rt link5) None online5] ∧
  activeLinks (self (snd (configure off (sidecar friendly online5 [])))) = ∅.
Proof. split_and!; reflexivity. Qed.



Example two_addresses_warn_and_go_on :
  fst (configure (config crowded true None None tt tt) (sidecar crowded ∅ [])) =
    Return None ∧
  logs (snd (configure (config crowded true None None tt tt) (sidecar crowded ∅ []))) =
    [mkWarning "Found 2 v4 addresses, expected just 1" []] ∧
  IPv4 <$> activeLinks (self (snd (configure (config crowded true None None tt tt)
                                     (sidecar crowded ∅ [])))) !! "default" =
    Some (Some addr5).
Proof. split_and!; reflexivity. Qed.


(** The run of that statement: the detach of the link with 10.0.0.5,
    then one attach for 10.0.0.9, made with the table empty. *)
Example address_change_detaches_then_attaches :
  cniCalls (snd (configure fixed9 (sidecar friendly online5 []))) =
    [mkCniCall (E:=friendly) CniDel (netconf link5) (rt link5) None online5;
     mkCniCall (E:=friendly) (CniAdd 0) (ipHead +:+ "10.0.0.9/24" +:+ ipTail)
       (rt link5) None ∅].
Proof. reflexivity. Qed.

Example deadline_cuts_a_slow_attach :
  fst (configure fixed5 (sidecar friendly ∅ slow)) =
    Return (Some (errors_New "timeout waiting on cninet.AddNetworkList")) ∧
  length (cniCalls (snd (configure fixed5 (sidecar friendly ∅ slow)))) = 1%nat.
Proof. split; reflexivity. Qed.

Example deadline_covers_all_attempts :
  fst (configure fixed5 (sidecar friendly ∅ failing)) =
    Return (Some (errors_New "timeout waiting on cninet.AddNetworkList")) ∧
  attach_times (cniCalls (snd (configure fixed5 (sidecar friendly ∅ failing)))) =
    [9 * Second; 9 * Second; 9 * Second].
Proof. split; reflexivity. Qed.

Example attach_error_after_three_attempts :
  Error <$> (match fst (configure fixed5 (sidecar friendly ∅ refused)) with
             | Return err => err
             | _ => None
             end) =
  Some "failed to add network through cni plugin: after 3 attempts, last error: plugin gone".
Proof. reflexivity. Qed.

Lemma attach_deadline_is_overall_witness :
  let timeout := errors_New "timeout waiting on cninet.AddNetworkList" in
  let failed e :=
    Errorf_w "failed to add network through cni plugin: " (retry_error 3 e) in
  (∀ nc r (s0 : State friendly),
     ∃ adds,
       let '(res, s1) := attach nc r s0 in
       let elapsed := retry_elapsed (2 * Second) (attach_times adds) in
       cniCalls s1 = cniCalls s0 ++ adds ∧
       length (attach_times adds) = length adds ∧
       (1 ≤ length adds ≤ 3)%nat ∧
       (30 * Second < elapsed → res = Return (Some timeout)) ∧
       (elapsed < 30 * Second →
        ∃ c, last adds = Some c ∧
             match call_result c with
             | None => res = Next tt
             | Some e => length adds = 3%nat ∧ res = Return (Some (failed e))
             end)) ∧
  (let '(res, s') := configure fixed5 (sidecar friendly ∅ slow) in
   ∃ dels adds,
     let elapsed := retry_elapsed (2 * Second) (attach_times adds) in
     cniCalls s' = cniCalls (sidecar friendly ∅ slow) ++ dels ++ adds ∧
     attach_times dels = [] ∧
     length (attach_times adds) = length adds ∧
     (adds ≠ [] →
      (30 * Second < elapsed → res = Return (Some timeout)) ∧
      (elapsed < 30 * Second →
       ∀ c e, last adds = Some c → call_result c = Some e →
         length adds = 3%nat ∧ res = Return (Some (failed e))))).
Proof.
  apply (attach_deadline_is_overall fixed5 (sidecar friendly ∅ slow)
           (configure fixed5)).
  right. reflexivity.
Defined.

(** What the amended statement about IPv6 leaves out: behind the skip,
    a request for an IPv6 address that finds a link online reads
    [link.IPv6.IP] through the nil [link.IPv6] and panics, before any CNI
    call. *)
Example ipv6_request_with_link_online_panics :
  configure wants6 (sidecar friendly online5 []) =
    (Panic "invalid memory address or nil pointer dereference",
     sidecar friendly online5 []).
Proof. reflexivity. Qed.

(** Pool mode: with no address asked for, the attach is made with the
    document for the sidecar's subnet. *)
Example pool_mode_connect :
  call_netconf <$> cniCalls (snd (configure pooled (sidecar friendly ∅ []))) =
    [netHead +:+ "10.32.0.0/12" +:+ netTail] ∧
  Json.parse (netHead +:+ "10.32.0.0/12" +:+ netTail) =
    Some (poolDocument "10.32.0.0/12").
Proof. split; reflexivity. Qed.

(** A request for a network the sidecar does not manage is refused, with
    the state as it was. *)
Example unknown_network_is_refused :
  ConfigureNetwork
    (network.mkConfig (E:=friendly) "unknown" true None None tt [] tt)
    (sidecar friendly online5 []) =
  (Return (Some (errors_New ("configured network is not `default`"))),
   sidecar friendly online5 []).
Proof. reflexivity. Qed.

(** * Further properties *)

(** ** retry at the ends of the range of [int] *)

(** X1.  With an attempt count of 1, of 0 or below 0, [retry] calls [f]
    exactly once and never sleeps: a success is passed on, and a failure
    is logged once and reported as [after n attempts], with [n] as it was
    given. *)
Theorem retry_single_attempt {St : Type} (Sleep : Z → St → St)
    (Warnw : string → list (string * string) → St → St)
    (n d : Z) (f : St → option error * St) (s : St) :
  minInt < n ≤ 1 →
  events (snd (probed_retry Sleep Warnw n d f s)) = [Called (fst (f s))] ∧
  retry Sleep Warnw n d f s =
    match f s with
    | (None, s') => (None, s')
    | (Some e, s') =>
        (Some (retry_error n e),
         Warnw "got err, waiting to retry" [("err", Error e)] s')
    end.
Proof.
  intros Hn.
  assert (Hw : wrapInt (n - 1) = n - 1)
    by (apply wrapInt_small; unfold minInt, maxInt in *; lia).
  unfold probed_retry, retry. rewrite Hw.
  replace (Z.to_nat (n - 1)) with 0%nat by lia.
  simpl. unfold probe_call. simpl.
  destruct (f s) as [[e|] s']; simpl; [|done].
  destruct (Z.geb_spec 0 (wrapInt (n - 1))); [done|lia].
Qed.

(** X2.  For every attempt count [n], [retry] gives up after
    [max 0 (n - 1) + 1] failed calls and not before, where [n - 1] is
    computed as Go computes it, on 64 bits: the calls before the last are
    failures, each followed by a sleep, and an error is returned only
    when that many calls have failed.  For the least [int] the
    subtraction wraps around, and [retry] gives up only after [2^63]
    failures. *)
Theorem retry_gives_up_at_the_wrapped_bound {St : Type} (Sleep : Z → St → St)
    (Warnw : string → list (string * string) → St → St)
    (n d : Z) (f : St → option error * St) (s : St) :
  let bound := Z.max 0 (wrapInt (n - 1)) in
  (n = minInt ↔ wrapInt (n - 1) = maxInt ∧ minInt ≤ n ≤ maxInt) ∧
  ∃ failures final,
    let '(r, p) := probed_retry Sleep Warnw n d f s in
    retry Sleep Warnw n d f s = (r, inner p) ∧
    events p = attempts_trace d failures final ∧
    Z.of_nat (length failures) ≤ bound ∧
    match final with
    | None => r = None
    | Some e => Z.of_nat (length failures) = bound ∧ r = Some (retry_error n e)
    end.
Proof.
  intros bound. split.
  { unfold wrapInt, minInt, maxInt. split.
    - intros ->. split; [reflexivity|lia].
    - intros [Hw Hn].
      destruct (Z.eq_dec n (- 2 ^ 63)) as [|Hne]; [done|].
      rewrite Z.mod_small in Hw by lia. lia. }
  pose proof (probed_loop_trace Sleep Warnw n d f
                (Z.to_nat (wrapInt (n - 1))) 0 (mkProbe s [])) as Ht.
  pose proof (probed_loop_inner Sleep Warnw n d f
                (Z.to_nat (wrapInt (n - 1))) 0 (mkProbe s [])) as Hi.
  destruct Ht as (failures & final & Ht); [lia|].
  exists failures, final.
  unfold probed_retry, retry. simpl in Hi. rewrite Hi. clear Hi.
  destruct (retry_loop _ _ _ _ _ _ _ _) as [r p].
  destruct Ht as (Hev & Hr & Hlen & Hfull). simpl in Hev. subst r.
  rewrite Z.sub_0_r in Hlen, Hfull. fold bound in Hlen, Hfull.
  destruct final as [e|]; simpl.
  - specialize (Hfull ltac:(congruence)). done.
  - done.
Qed.

(** ** More on the sidecar *)

Section MoreSidecarFacts.

Context {E : Env}.

(** ** The attach *)

Lemma new_calls_app (s s' : State E) adds :
  cniCalls s' = cniCalls s ++ adds → new_calls s s' = adds.
Proof. intros H. unfold new_calls. rewrite H. apply drop_app_length. Qed.

(** The calls of the retry loop around the attach: failures, each
    logged, and one last call whose result is the loop's. *)
Lemma retry_loop_failures nc r attempts d budget : ∀ i (s : State E),
  ∃ fails final,
    let '(res, s') := retry_loop Sleep Warnw attempts d (cniAdd nc r) budget i s in
    cniCalls s' = cniCalls s ++ fails ++ [final] ∧
    logs s' = logs s ++ omap failure_warning (fails ++ [final]) ∧
    Forall (λ c, call_result c ≠ None) fails ∧
    call_result final = res.
Proof.
  induction budget as [|b IH]; intros i s; simpl; unfold cniAdd at 1;
    destruct (AddNetworkList E nc r (world s)) as [[e|] w]; simpl;
    try (destruct (i >=? wrapInt (attempts - 1)));
    try (eexists [], _; split; [reflexivity|]; simpl; rewrite ?app_nil_r;
         split_and!; [reflexivity|constructor|reflexivity]).
  match goal with |- context [retry_loop _ _ _ _ _ _ _ ?s2] =>
    destruct (IH (i + 1) s2) as (fails & final & H);
    destruct (retry_loop Sleep Warnw attempts d (cniAdd nc r) b (i + 1) s2)
      as [res s'] end.
  destruct H as (Hcalls & Hlogs & Hfails & Hfinal). simpl in *.
  eexists (_ :: fails), final. split_and!.
  - rewrite Hcalls, <- app_assoc. reflexivity.
  - rewrite Hlogs, <- app_assoc. reflexivity.
  - constructor; [simpl; congruence | exact Hfails].
  - exact Hfinal.
Qed.

Lemma attach_failures nc r (s : State E) :
  ∃ fails final,
    let '(res, s') := attach nc r s in
    cniCalls s' = cniCalls s ++ fails ++ [final] ∧
    logs s' = logs s ++ omap failure_warning (fails ++ [final]) ∧
    Forall (λ c, call_result c ≠ None) fails.
Proof.
  destruct (retry_loop_failures nc r 3 (2 * Second) (Z.to_nat (wrapInt (3 - 1))) 0 s)
    as (fails & final & H).
  exists fails, final. unfold attach, retry.
  destruct (retry_loop _ _ _ _ _ _ _ _) as [res s1].
  destruct H as (Hcalls & Hlogs & Hfails & _).
  destruct res as [e|]; simpl;
    match goal with |- context [if ?b then _ else _] => destruct b end; simpl; done.
Qed.

(** X3.  The attach leaves the receiver as it is and logs one warning
    for every attach call that failed, the last one included, in the
    order of the calls and with the text of the call's error; it logs
    nothing else. *)
Theorem attach_logs_each_failure nc r (s : State E) :
  let '(res, s') := attach nc r s in
  cniCalls s' = cniCalls s ++ new_calls s s' ∧
  logs s' = logs s ++ omap failure_warning (new_calls s s') ∧
  self s' = self s.
Proof.
  pose proof (attach_failures nc r s) as (fails & final & H).
  pose proof (attach_spec nc r s) as (adds & Hspec).
  destruct (attach nc r s) as [res s'].
  destruct H as (Hcalls & Hlogs & _). cbv zeta in Hspec.
  destruct Hspec as (Hself & _).
  rewrite (new_calls_app s s' (fails ++ [final])) by exact Hcalls. done.
Qed.


(** X4.  The attach reports a failure of the plugin only when three
    attach calls were made and all three failed, and the three calls
    took 26 seconds or less together: the two sleeps of two seconds count
    against the deadline of 30.  The error then wraps the error of
    [retry], which carries the text of the third failure but does not
    wrap it. *)
Theorem attach_failure_takes_three_calls nc r (s : State E) e :
  fst (attach nc r s) = Return (Some e) →
  e ≠ errors_New "timeout waiting on cninet.AddNetworkList" →
  ∃ c1 c2 c3 e3,
    new_calls s (snd (attach nc r s)) = [c1; c2; c3] ∧
    call_result c1 ≠ None ∧ call_result c2 ≠ None ∧ call_result c3 = Some e3 ∧
    e = Errorf_w "failed to add network through cni plugin: " (retry_error 3 e3) ∧
    Unwrap e = Some (retry_error 3 e3) ∧
    Unwrap (retry_error 3 e3) = None ∧
    foldr Z.add 0 (attach_times [c1; c2; c3]) ≤ 26 * Second.
Proof.
  intros Hres Hne.
  pose proof (attach_failures nc r s) as (fails & final & H).
  pose proof (attach_spec nc r s) as (adds & Hspec).
  destruct (attach nc r s) as [res s']. simpl in Hres. subst res.
  destruct H as (Hcalls & _ & Hfails). cbv zeta in Hspec.
  destruct Hspec as (_ & Hadds & _ & Hlen & _ & Hend).
  assert (adds = fails ++ [final]) as ->.
  { rewrite Hadds in Hcalls. by apply app_inv_head in Hcalls. }
  simpl snd. rewrite (new_calls_app s s' _ Hadds).
  destruct Hend as [[Ht _]|[Hle Hlast]]; [congruence|].
  rewrite last_snoc in Hlast.
  destruct (call_result final) as [e3|] eqn:Hfinal; [|discriminate].
  destruct Hlast as [Hthree Herr]. injection Herr as ->.
  rewrite length_app in Hthree. simpl in Hthree.
  destruct fails as [|c1 [|c2 [|c3 rest]]]; simpl in Hthree; try lia.
  apply Forall_cons in Hfails as [H1 Hfails].
  apply Forall_cons in Hfails as [H2 _].
  exists c1, c2, final, e3. simpl app in *.
  split_and!; try done.
  unfold retry_elapsed in Hle. rewrite Hlen in Hle. simpl length in Hle.
  unfold Second in *. lia.
Qed.

(** ** ListActive *)

Lemma elem_of_ListActive (n : K8sNetwork E) name :
  name ∈ ListActive n ↔ is_Some (activeLinks n !! name).
Proof.
  unfold ListActive. rewrite list_elem_of_fmap. split.
  - intros ([k l] & -> & Hin). apply elem_of_map_to_list in Hin. by exists l.
  - intros [l Hl]. exists (name, l). split; [done|]. by apply elem_of_map_to_list.
Qed.

(** X15.  [ListActive] returns the names of the networks that have an
    active link, each of them once: a name is in the list exactly when
    the table has a link for it, no name is listed twice, and the list is
    as long as the table is large. *)
Theorem ListActive_lists_each_link_once (n : K8sNetwork E) :
  (∀ name, name ∈ ListActive n ↔ is_Some (activeLinks n !! name)) ∧
  NoDup (ListActive n) ∧
  length (ListActive n) = size (activeLinks n).
Proof.
  split_and!.
  - apply elem_of_ListActive.
  - apply NoDup_fst_map_to_list.
  - unfold ListActive. rewrite length_fmap. apply length_map_to_list.
Qed.

(** ** What a run of the statements after the skip leaves alone *)

Section Framing.

Variable R : State E → State E → Prop.
Hypothesis R_trans : Transitive R.
Hypothesis R_self : ∀ s s', self s' = self s → R s s'.

Lemma framing_refl : Reflexive R.
Proof. intros s. by apply R_self. Qed.

Lemma framing_external {A} (op : World E → A * World E) : frames R (external op).
Proof. intros s. apply R_self. unfold external. by destruct (op (world s)). Qed.

Lemma framing_cniDel nc r : frames R (cniDel nc r).
Proof. intros s. apply R_self. unfold cniDel. by destruct (DelNetworkList E _ _ _). Qed.

Lemma framing_attach nc r : frames R (attach nc r).
Proof.
  intros s. apply R_self.
  pose proof (attach_spec nc r s) as (adds & H).
  destruct (attach nc r s) as [res s']. cbv zeta in H. tauto.
Qed.

Lemma framing_warn msg : frames R (modify (Warnf msg)).
Proof. intros s. by apply R_self. Qed.

Variable N : string.
Hypothesis R_delete : frames R (deleteActiveLink N).
Hypothesis R_routes : ∀ x, frames R (storeExternalRouting (dataNetworkIfname E) x).
Hypothesis R_store :
  ∀ h v4 r nc, frames R (storeActiveLink N (mkLink h (Some v4) None r nc)).

Ltac framing_step :=
  first
    [ apply frames_bind; [exact R_trans | | intros ?]
    | apply framing_external
    | apply framing_cniDel
    | apply framing_attach
    | apply framing_warn
    | apply R_delete
    | apply R_routes
    | apply R_store
    | apply frames_try; exact framing_refl
    | apply frames_check; exact framing_refl
    | apply frames_gets; exact framing_refl
    | apply frames_ret; exact framing_refl
    | apply frames_return; exact framing_refl
    | apply frames_panic; exact framing_refl
    | match goal with
      | |- frames _ (match ?x with _ => _ end) => destruct x
      | |- frames _ (if ?x then _ else _) => destruct x
      end ].

Lemma framing_configure cfg :
  network.Network cfg = N → frames R (configure cfg).
Proof.
  intros <-.
  unfold configure, disableNetwork, disconnectOnAddressChange, addressChange,
    addressDiffers, connect, registerLink, range_routes, first_address, applyConfig.
  repeat framing_step.
Qed.

End Framing.

Lemma configure_same_elsewhere cfg :
  frames (E:=E) (same_elsewhere (network.Network cfg)) (configure cfg).
Proof.
  apply (framing_configure _) with (N := network.Network cfg);
    [| |intros s0|intros x s0|intros h v4 r nc s0|reflexivity].
  - intros a b c (H1 & H2 & H3 & H4 & H5) (H1' & H2' & H3' & H4' & H5').
    split_and!; try congruence.
    + intros k Hk. rewrite H1', H1 by done. done.
    + intros k Hk. rewrite H2', H2 by done. done.
  - intros a b Hself. unfold same_elsewhere. rewrite Hself. done.
  - simpl. split_and!; try done. intros k Hk. by apply lookup_delete_ne.
  - simpl. split_and!; try done. intros k Hk. by apply lookup_insert_ne.
  - simpl. split_and!; try done. intros k Hk. by apply lookup_insert_ne.
Qed.

(** X9.  Whatever a run of the statements after the skip does and however
    it ends, it touches one entry of the active links, that of the
    configured network, and one entry of the external routes, that of the
    data interface: every other entry of the two tables, the container
    ID, the subnet and the path of the network namespace are as they
    were, and [ListActive] lists every other network exactly when it
    listed it before. *)
Theorem configure_touches_one_network cfg (s : State E) :
  let s' := snd (configure cfg s) in
  same_elsewhere (network.Network cfg) s s' ∧
  ∀ name, name ≠ network.Network cfg →
    (name ∈ ListActive (self s') ↔ name ∈ ListActive (self s)).
Proof.
  intros s'. pose proof (configure_same_elsewhere cfg s) as H. fold s' in H.
  split; [exact H|].
  intros name Hname. destruct H as (Hlinks & _).
  by rewrite !elem_of_ListActive, Hlinks.
Qed.

(** X10.  The statements after the skip keep the table of active links
    as the connect branch makes it: if every link of the table has an
    IPv4 address and no IPv6 address before a run, the same holds after
    it, however the run ends. *)
Theorem configure_keeps_links_as_registered cfg (s : State E) :
  links_as_registered (activeLinks (self s)) →
  links_as_registered (activeLinks (self (snd (configure cfg s)))).
Proof.
  assert (H : frames keeps_links_as_registered (configure cfg));
    [|exact (H s)].
  apply (framing_configure _) with (N := network.Network cfg);
    [| |intros s0|intros x s0|intros h v4 r nc s0|reflexivity].
  - intros a b c H1 H2 H. apply H2, H1, H.
  - intros a b Hself. unfold keeps_links_as_registered. by rewrite Hself.
  - intros H name l Hl. simpl in Hl.
    apply lookup_delete_Some in Hl as [_ Hl]. by apply (H name).
  - intros H. exact H.
  - intros H name l Hl. simpl in Hl.
    apply lookup_insert_Some in Hl as [[_ <-]|[_ Hl]]; [done|by apply (H name)].
Qed.


(** ** A request that finds the link online *)

Lemma applyConfig_self cfg link (s : State E) :
  self (snd (applyConfig cfg link s)) = self s.
Proof.
  set (R := λ s s' : State E, self s' = self s).
  assert (Hself : ∀ s s' : State E, self s' = self s → R s s') by done.
  assert (Hrefl : Reflexive R) by done.
  assert (Htrans : Transitive R) by (intros a b c H1 H2; unfold R in *; congruence).
  assert (H : frames R (applyConfig cfg link)); [|exact (H s)].
  unfold applyConfig.
  repeat first
    [ apply frames_bind; [exact Htrans | | intros ?]
    | apply (framing_external R Hself)
    | apply frames_check; exact Hrefl
    | apply frames_gets; exact Hrefl
    | apply frames_return; exact Hrefl ].
Qed.

Lemma addressChange_same cfg l (s : State E) :
  same_address cfg l → addressChange cfg l s = (Next false, s).
Proof.
  intros [H6 [H4|(want & have & H4 & Hl & Heq)]];
    unfold addressChange, addressDiffers, bind, ret; rewrite H6, H4; simpl;
    [reflexivity|]. rewrite Hl, Heq. reflexivity.
Qed.

Lemma configure_same_address cfg (s : State E) l :
  network.Enable cfg = true →
  activeLinks (self s) !! network.Network cfg = Some l →
  same_address cfg l →
  configure cfg s = applyConfig cfg l s.
Proof.
  intros Hen Hl Hsame.
  rewrite configure_unfold. cbv zeta. rewrite Hen, Hl. cbn [negb].
  rewrite disconnect_unfold, (addressChange_same cfg l s Hsame). reflexivity.
Qed.

(** X5.  A request with [Enable] true that finds the link of its network
    online, asks for no IPv6 address and asks either for no IPv4 address
    or for one with the IP of the link's (whatever its mask), makes no CNI
    call and leaves the receiver as it is: the run is the shaping, the
    rules and the routing policy applied to the link that is online. *)
Theorem reconfigure_keeps_the_link cfg (s : State E) l :
  network.Enable cfg = true →
  activeLinks (self s) !! network.Network cfg = Some l →
  same_address cfg l →
  configure cfg s = applyConfig cfg l s ∧
  new_calls s (snd (configure cfg s)) = [] ∧
  self (snd (configure cfg s)) = self s.
Proof.
  intros Hen Hl Hsame.
  rewrite (configure_same_address cfg s l Hen Hl Hsame).
  split_and!; [reflexivity| |apply applyConfig_self].
  apply new_calls_app. rewrite app_nil_r. apply quiet_applyConfig.
Qed.

(** X6.  A request with [Enable] true for an IPv6 address that finds the
    link of its network online panics, with the state as it was: the
    links of the table have no IPv6 address, and line 77 reads
    [link.IPv6.IP].  The error [ipv6 not supported] is not reached. *)
Theorem ipv6_request_on_online_link_panics cfg (s : State E) l a6 :
  links_as_registered (activeLinks (self s)) →
  network.Enable cfg = true →
  activeLinks (self s) !! network.Network cfg = Some l →
  network.IPv6 cfg = Some a6 →
  configure cfg s =
    (Panic "invalid memory address or nil pointer dereference", s).
Proof.
  intros Hreg Hen Hl H6.
  destruct (Hreg _ _ Hl) as [_ Hnone].
  rewrite configure_unfold. cbv zeta. rewrite Hen, Hl. cbn [negb].
  rewrite disconnect_unfold.
  unfold addressChange, addressDiffers, bind, panic. rewrite H6, Hnone.
  reflexivity.
Qed.

(** ** The routes of the new link *)

Lemma registerLink_routes cfg nc r (s : State E) l w2 routes err w3 :
  LinkByName E (dataNetworkIfname E) (world s) = (Ok l, w2) →
  getK8sRoutes E l w2 = ((routes, err), w3) →
  match routes, err with
  | None, _ =>
      registerLink cfg nc r s =
      (Panic "invalid memory address or nil pointer dereference", set_world w3 s)
  | Some found, Some e =>
      registerLink cfg nc r s =
      (Return (Some e),
       mkState
         (set_externalRouting
            (<[dataNetworkIfname E := Some found]> (externalRouting (self s))) (self s))
         w3 (clock s) (cniCalls s) (logs s))
  | Some _, None => True
  end.
Proof.
  intros H1 H2.
  unfold registerLink, bind, external, try, check, range_routes,
    storeExternalRouting, modify, ret, return_, panic.
  rewrite H1. simpl. rewrite H2. simpl.
  destruct routes as [found|]; [|reflexivity].
  destruct err as [e|]; [reflexivity|exact I].
Qed.

Lemma configure_reaches_routes cfg (s : State E) nc l w2 :
  network.Enable cfg = true →
  network.IPv6 cfg = None →
  activeLinks (self s) !! network.Network cfg = None →
  reaches_routes cfg s nc l w2 →
  ∃ s1,
    configure cfg s =
      bind (registerLink cfg nc (runtimeConf (self s))) (applyConfig cfg) s1 ∧
    LinkByName E (dataNetworkIfname E) (world s1) = (Ok l, w2) ∧
    self s1 = self s ∧ logs s1 = logs s ∧ clock s1 - clock s < 30 * Second ∧
    cniCalls s1 =
      cniCalls s ++
      [mkCniCall (CniAdd (clock s1 - clock s)) nc (runtimeConf (self s)) None
         (activeLinks (self s))].
Proof.
  intros Hen H6 Hoff (w1 & Hnc & Hadd & Htime & Hname).
  eexists. split.
  - rewrite configure_unfold. cbv zeta. rewrite Hoff, Hen. cbn [negb].
    rewrite disconnect_unfold, connect_unfold, H6, Hnc.
    rewrite (attach_first_try _ _ _ w1 Hadd Htime). reflexivity.
  - simpl. split_and!; try done; try lia.
    do 4 f_equal; lia.
Qed.

(** X7.  When [getK8sRoutes] returns no routes for the new link, with
    an error or without, the run panics at line 150, which reads
    [routes.routes] before the error is looked at: the error is never
    returned, the attach has been made and stays, and neither a link nor
    a route is stored. *)
Theorem nil_routes_panic cfg (s : State E) nc l w2 err w3 :
  network.Enable cfg = true →
  network.IPv6 cfg = None →
  activeLinks (self s) !! network.Network cfg = None →
  reaches_routes cfg s nc l w2 →
  getK8sRoutes E l w2 = ((None, err), w3) →
  let '(res, s') := configure cfg s in
  res = Panic "invalid memory address or nil pointer dereference" ∧
  self s' = self s ∧
  world s' = w3 ∧
  ∃ took, new_calls s s' =
            [mkCniCall (CniAdd took) nc (runtimeConf (self s)) None (activeLinks (self s))].
Proof.
  intros Hen H6 Hoff Hreach Hroutes.
  destruct (configure_reaches_routes cfg s nc l w2 Hen H6 Hoff Hreach)
    as (s1 & -> & Hname & Hself & _ & _ & Hcalls).
  unfold bind at 1.
  pose proof (registerLink_routes cfg nc (runtimeConf (self s)) s1 l w2 None err w3
                Hname Hroutes) as ->.
  split_and!; [reflexivity|exact Hself|reflexivity|].
  eexists. apply new_calls_app. exact Hcalls.
Qed.

(** X8.  When [getK8sRoutes] returns routes next to an error, the run
    stores the routes as the external routing of the data interface and
    then returns that error as it is, unwrapped; the attach has been made
    and stays, and no link is stored for the network. *)
Theorem routes_error_is_returned_after_storing cfg (s : State E) nc l w2 found e w3 :
  network.Enable cfg = true →
  network.IPv6 cfg = None →
  activeLinks (self s) !! network.Network cfg = None →
  reaches_routes cfg s nc l w2 →
  getK8sRoutes E l w2 = ((Some found, Some e), w3) →
  let '(res, s') := configure cfg s in
  res = Return (Some e) ∧
  externalRouting (self s') =
    <[dataNetworkIfname E := Some found]> (externalRouting (self s)) ∧
  activeLinks (self s') = activeLinks (self s) ∧
  ∃ took, new_calls s s' =
            [mkCniCall (CniAdd took) nc (runtimeConf (self s)) None (activeLinks (self s))].
Proof.
  intros Hen H6 Hoff Hreach Hroutes.
  destruct (configure_reaches_routes cfg s nc l w2 Hen H6 Hoff Hreach)
    as (s1 & -> & Hname & Hself & _ & _ & Hcalls).
  unfold bind at 1.
  pose proof (registerLink_routes cfg nc (runtimeConf (self s)) s1 l w2 (Some found)
                (Some e) w3 Hname Hroutes) as ->.
  simpl. rewrite Hself. split_and!; try reflexivity.
  eexists. apply new_calls_app. exact Hcalls.
Qed.


(** ** Where a run can panic *)



Lemma calm_bind {A B} (Q : A → Prop) (m : Block E A) (k : A → Block E B) :
  never_panics m →
  (∀ s a, fst (m s) = Next a → Q a) →
  (∀ a, Q a → never_panics (k a)) →
  never_panics (bind m k).
Proof.
  intros Hm HQ Hk s msg. unfold bind.
  specialize (Hm s). specialize (HQ s).
  destruct (m s) as [[a|err|msg'] s1]; simpl in *; [|done|by destruct (Hm msg')].
  apply (Hk a (HQ a eq_refl)).
Qed.

Lemma calm_external {A} (op : World E → A * World E) : never_panics (external op).
Proof. intros s msg. unfold external. by destruct (op (world s)). Qed.

Lemma calm_check wrap err : never_panics (check (E:=E) wrap err).
Proof. intros s msg. by destruct err. Qed.

Lemma calm_try {A} wrap (r : result A) : never_panics (try (E:=E) wrap r).
Proof. intros s msg. by destruct r. Qed.

Lemma calm_attach nc r : never_panics (attach (E:=E) nc r).
Proof.
  intros s msg. pose proof (attach_spec nc r s) as (adds & H).
  destruct (attach nc r s) as [res s']. cbv zeta in H. simpl.
  destruct H as (_ & _ & _ & _ & _ & [[-> _]|[_ H]]); [done|].
  destruct (last adds) as [c|]; [|done].
  destruct (call_result c); [destruct H as [_ ->]|subst res]; done.
Qed.

Lemma calm_applyConfig cfg link : never_panics (applyConfig (E:=E) cfg link).
Proof.
  unfold applyConfig.
  repeat first
    [ apply (calm_bind (λ _, True)); [| done | intros ? _]
    | apply calm_external
    | apply calm_check
    | done ].
Qed.

Lemma calm_registerLink cfg nc r :
  (∀ l w, fst (fst (getK8sRoutes E l w)) ≠ None) →
  (∀ h w, fst (ListV4 E h w) ≠ Ok []) →
  never_panics (registerLink (E:=E) cfg nc r).
Proof.
  intros Hroutes Haddrs. unfold registerLink.
  apply (calm_bind (λ _, True)); [apply calm_external|done|intros byName _].
  apply (calm_bind (λ _, True)); [apply calm_try|done|intros l _].
  apply (calm_bind (λ routed, fst routed ≠ None)); [apply calm_external| |].
  { intros s routed. unfold external. specialize (Hroutes l (world s)).
    destruct (getK8sRoutes E l (world s)) as [x w]. simpl in *.
    intros [= <-]. exact Hroutes. }
  intros [routes err] Hsome. simpl in Hsome.
  apply (calm_bind (λ _, True)); [|done|intros _ _].
  { destruct routes; done. }
  apply (calm_bind (λ _, True)); [done|done|intros _ _].
  apply (calm_bind (λ _, True)); [apply calm_check|done|intros _ _].
  apply (calm_bind (λ _, True)); [apply calm_external|done|intros created _].
  apply (calm_bind (λ _, True)); [apply calm_try|done|intros h _].
  apply (calm_bind (λ listed, listed ≠ Ok [])); [apply calm_external| |].
  { intros s listed. unfold external. specialize (Haddrs h (world s)).
    destruct (ListV4 E h (world s)) as [x w]. simpl in *.
    intros [= <-]. exact Haddrs. }
  intros listed Hlisted.
  apply (calm_bind (λ v4addrs, v4addrs ≠ [])); [apply calm_try| |].
  { intros s v4addrs. destruct listed; simpl; [|done].
    intros [= <-]. congruence. }
  intros v4addrs Hne.
  apply (calm_bind (λ _, True)); [|done|intros _ _].
  { destruct (Nat.eqb _ _); done. }
  apply (calm_bind (λ _, True)); [|done|intros v4 _].
  { destruct v4addrs; done. }
  apply (calm_bind (λ _, True)); done.
Qed.

(** X11.  The statements after the skip panic in three places only, all
    of them reads through a pointer or an index that the code does not
    check.  When the request asks for no IPv6 address, the links of the
    table are as the connect branch makes them, [getK8sRoutes] never
    returns nil routes and [ListV4] never returns an empty list without
    an error, no run panics: it ends with nil or with an error. *)
Theorem configure_does_not_panic cfg (s : State E) :
  (∀ l w, fst (fst (getK8sRoutes E l w)) ≠ None) →
  (∀ h w, fst (ListV4 E h w) ≠ Ok []) →
  links_as_registered (activeLinks (self s)) →
  network.IPv6 cfg = None →
  ∃ err, fst (configure cfg s) = Return err.
Proof.
  intros Hroutes Haddrs Hreg H6.
  assert (Hcalm : ∀ msg, fst (configure cfg s) ≠ Panic msg).
  { intros msg. rewrite configure_unfold. cbv zeta.
    destruct (network.Enable cfg); cbn [negb].
    - rewrite disconnect_unfold.
      assert (Hconnect : ∀ s1, fst (bind (connect cfg) (applyConfig cfg) s1) ≠ Panic msg).
      { intros s1. rewrite connect_unfold, H6.
        destruct (connectConfig cfg (self s1)) as [nc|e]; [|done].
        pose proof (calm_attach nc (runtimeConf (self s1)) s1) as Hatt.
        destruct (attach nc (runtimeConf (self s1)) s1) as [[[]|err|msg'] s2];
          simpl in *; [|done|by destruct (Hatt msg')].
        apply (calm_bind (λ _, True)); [by apply calm_registerLink|done|].
        intros link _. apply calm_applyConfig. }
      destruct (activeLinks (self s) !! network.Network cfg) as [l|] eqn:Hl;
        [|apply Hconnect].
      destruct (Hreg _ _ Hl) as [H4 _].
      unfold addressChange, addressDiffers, bind, ret. rewrite H6. simpl.
      destruct (network.IPv4 cfg) as [want|]; [|apply calm_applyConfig].
      destruct (IPv4 l) as [have|]; [|done]. simpl.
      destruct (IP_Equal E (IP have) (IP want)); simpl; [apply calm_applyConfig|].
      destruct (detached l s) as [[e|] s1]; [done|apply Hconnect].
    - rewrite disableNetwork_unfold.
      destruct (activeLinks (self s) !! network.Network cfg) as [l|]; [|done].
      by destruct (detached l s) as [[e|] s1]. }
  destruct (configure cfg s) as [[[]|err|msg] s']; simpl in *;
    [by eexists|by destruct (Hcalm msg)].
Qed.


(** ** Runs that follow one another *)

Lemma configure_disable cfg (s : State E) :
  network.Enable cfg = false →
  fst (configure cfg s) = Return None →
  activeLinks (self (snd (configure cfg s))) =
    delete (network.Network cfg) (activeLinks (self s)).
Proof.
  intros Hoff. rewrite configure_unfold. cbv zeta. rewrite Hoff. cbn [negb].
  rewrite disableNetwork_unfold.
  destruct (activeLinks (self s) !! network.Network cfg) as [l|] eqn:Hl.
  - pose proof (detached_spec l s) as Hd.
    destruct (detached l s) as [[e|] s1]; [done|]. intros _. simpl.
    destruct Hd as (Hself & _). by rewrite Hself.
  - intros _. simpl. symmetry. by apply delete_id.
Qed.

(** X12.  When a request with [Enable] false has returned nil, the
    network has no link in the table and [ListActive] does not list it,
    and the same request made again returns nil and changes nothing: no
    second detach is made. *)
Theorem disable_twice cfg (s : State E) :
  network.Enable cfg = false →
  fst (configure cfg s) = Return None →
  let s1 := snd (configure cfg s) in
  (network.Network cfg ∉ ListActive (self s1)) ∧
  configure cfg s1 = (Return None, s1).
Proof.
  intros Hoff Hnil s1.
  assert (Hgone : activeLinks (self s1) !! network.Network cfg = None).
  { subst s1. rewrite (configure_disable cfg s Hoff Hnil). apply lookup_delete_eq. }
  split.
  - rewrite elem_of_ListActive, Hgone. by intros [? ?].
  - rewrite configure_unfold. cbv zeta. rewrite Hoff, Hgone. reflexivity.
Qed.


Lemma configure_connected cfg (s : State E) nc h first rest :
  network.Enable cfg = true →
  network.IPv6 cfg = None →
  activeLinks (self s) !! network.Network cfg = None →
  connects_cleanly cfg s nc h (first :: rest) →
  activeLinks (self (snd (configure cfg s))) =
    <[network.Network cfg := mkLink h (Some first) None (runtimeConf (self s)) nc]>
      (activeLinks (self s)) ∧
  container_ID (self (snd (configure cfg s))) = container_ID (self s) ∧
  netnsPath (self (snd (configure cfg s))) = netnsPath (self s) ∧
  subnet (self (snd (configure cfg s))) = subnet (self s).
Proof.
  intros Hen H6 Hoff Hclean.
  pose proof (configure_clean cfg s nc h (first :: rest) Hen H6 Hoff Hclean) as H.
  pose proof (configure_same_elsewhere cfg) as Hframe.
  specialize (Hframe s). destruct Hframe as (_ & _ & Hc & Hs & Hn).
  cbv zeta in H. destruct (configure cfg s) as [res s']. simpl in *.
  destruct H as (_ & _ & Hlinks & _). done.
Qed.

(** X13.  A connect that goes through, followed by a request with
    [Enable] false for the same network: after the connect [ListActive]
    lists the network; the second run makes one CNI call, the detach,
    with the configuration list and the runtime record the attach was
    made with; it returns nil or the error of that call behind [when 6],
    and when the detach succeeds the table of active links, and with it
    what [ListActive] lists, is back to what it was before the connect. *)
Theorem connect_then_disable cfg off (s : State E) nc h first rest :
  network.Enable cfg = true →
  network.IPv6 cfg = None →
  activeLinks (self s) !! network.Network cfg = None →
  connects_cleanly cfg s nc h (first :: rest) →
  network.Network off = network.Network cfg →
  network.Enable off = false →
  let s1 := snd (configure cfg s) in
  let '(res, s2) := configure off s1 in
  (network.Network cfg ∈ ListActive (self s1)) ∧
  ∃ err,
    new_calls s1 s2 =
      [mkCniCall CniDel nc (runtimeConf (self s)) err (activeLinks (self s1))] ∧
    res = Return (Errorf_w "when 6: " <$> err) ∧
    (err = None →
     activeLinks (self s2) = activeLinks (self s) ∧
     ListActive (self s2) ≡ₚ ListActive (self s)).
Proof.
  intros Hen H6 Hoff Hclean HN Hdis s1.
  destruct (configure_connected cfg s nc h first rest Hen H6 Hoff Hclean)
    as (Hlinks & _).
  fold s1 in Hlinks.
  assert (Hon : activeLinks (self s1) !! network.Network off =
                Some (mkLink h (Some first) None (runtimeConf (self s)) nc)).
  { rewrite HN, Hlinks. apply lookup_insert_eq. }
  rewrite configure_unfold. cbv zeta. rewrite Hdis, Hon. cbn [negb].
  rewrite disableNetwork_unfold.
  match goal with |- context [detached ?l s1] =>
    pose proof (detached_spec l s1) as Hd; destruct (detached l s1) as [err s2] end.
  destruct Hd as (Hself & _ & Hcalls). simpl in Hcalls.
  assert (Hlisted : network.Network cfg ∈ ListActive (self s1)).
  { rewrite elem_of_ListActive, <- HN, Hon. by eexists. }
  destruct err as [e|]; (split; [exact Hlisted|]).
  - exists (Some e). split_and!; [by apply new_calls_app|reflexivity|done].
  - exists None. split_and!; [by apply new_calls_app|reflexivity|].
    intros _. simpl.
    assert (Hback : delete (network.Network off) (activeLinks (self s2)) =
                    activeLinks (self s)).
    { rewrite Hself, Hlinks, HN. by apply delete_insert_id. }
    split; [exact Hback|]. unfold ListActive. simpl. by rewrite Hback.
Qed.

(** X14.  The address of a new link is the one the kernel reports, and
    the code does not compare it with the one asked for.  So when a
    request for an IPv4 address has gone through and the same request is
    made again: if the link has the IP asked for, or none was asked for,
    the second run makes no CNI call; if the link has another IP, the
    second run starts by detaching the link it has just made. *)
Theorem repeated_request cfg (s : State E) nc h first rest :
  network.Enable cfg = true →
  network.IPv6 cfg = None →
  activeLinks (self s) !! network.Network cfg = None →
  connects_cleanly cfg s nc h (first :: rest) →
  let s1 := snd (configure cfg s) in
  let s2 := snd (configure cfg s1) in
  let differs :=
    match network.IPv4 cfg with
    | Some want => negb (IP_Equal E (IP first) (IP want))
    | None => false
    end in
  if differs then
    ∃ err more,
      new_calls s1 s2 =
        mkCniCall CniDel nc (runtimeConf (self s)) err (activeLinks (self s1)) :: more
  else new_calls s1 s2 = [].
Proof.
  intros Hen H6 Hoff Hclean s1 s2 differs.
  destruct (configure_connected cfg s nc h first rest Hen H6 Hoff Hclean)
    as (Hlinks & _).
  fold s1 in Hlinks.
  set (link := mkLink h (Some first) None (runtimeConf (self s)) nc) in *.
  assert (Hon : activeLinks (self s1) !! network.Network cfg = Some link).
  { rewrite Hlinks. apply lookup_insert_eq. }
  destruct differs eqn:Hdiff; subst differs.
  - destruct (network.IPv4 cfg) as [want|] eqn:H4; [|done].
    assert (Hchange : disconnectOnAddressChange cfg (Some link) s1 =
              match detached link s1 with
              | (Some e, s3) => (Return (Some (Errorf_w "when 5: " e)), s3)
              | (None, s3) => (Next None, unlinked (network.Network cfg) s3)
              end).
    { rewrite disconnect_unfold.
      unfold addressChange, addressDiffers, bind, ret. rewrite H6, H4. simpl.
      by rewrite Hdiff. }
    subst s2. fold s1.
    destruct (configure cfg s1) as [res s3] eqn:Hcfg.
    simpl.
    rewrite configure_unfold in Hcfg. cbv zeta in Hcfg.
    rewrite Hen, Hon, Hchange in Hcfg. cbn [negb] in Hcfg.
    pose proof (detached_spec link s1) as Hd.
    destruct (detached link s1) as [[e|] s4].
    + injection Hcfg as _ <-. destruct Hd as (_ & _ & Hd).
      eexists _, []. apply new_calls_app. exact Hd.
    + destruct Hd as (Hself4 & _ & Hd).
      assert (Hpre : ∃ more, cniCalls s3 = cniCalls (unlinked (network.Network cfg) s4) ++ more).
      { revert Hcfg. rewrite connect_unfold, H6.
        destruct (connectConfig cfg _) as [nc'|e'];
          [|intros [= _ <-]; exists []; by rewrite app_nil_r].
        pose proof (attach_spec nc' (runtimeConf (self (unlinked (network.Network cfg) s4)))
                      (unlinked (network.Network cfg) s4)) as (adds' & Ha).
        destruct (attach nc' _ _) as [[[]|err'|msg'] s5]; cbv zeta in Ha;
          destruct Ha as (_ & Ha & _).
        - intros Hcfg.
          pose proof (quiet_after cfg nc'
                        (runtimeConf (self (unlinked (network.Network cfg) s4))) s5)
            as [Hq _].
          rewrite Hcfg in Hq. simpl in Hq. exists adds'. congruence.
        - intros [= _ <-]. by exists adds'.
        - intros [= _ <-]. by exists adds'. }
      destruct Hpre as [more Hmore]. simpl in Hmore.
      eexists None, more. apply new_calls_app.
      rewrite Hmore, Hd, <- app_assoc. reflexivity.
  - assert (Hsame : same_address cfg link).
    { split; [exact H6|].
      destruct (network.IPv4 cfg) as [want|]; [|by left].
      right. exists want, first. split_and!; try done.
      by apply negb_false_iff. }
    subst s2. rewrite (configure_same_address cfg s1 link Hen Hon Hsame).
    apply new_calls_app. rewrite app_nil_r. apply quiet_applyConfig.
Qed.


(** ** A change of address that does not go through *)

(** X17.  A change of address is a detach followed by a connect, and
    nothing is put back when the connect fails.  When a request asks for
    an IP other than that of the link online, the detach succeeds, and
    the attach then fails or times out, the run returns the error of the
    attach and leaves the network without a link: the old link is gone
    from the table and [ListActive] no longer lists the network. *)
Theorem failed_reattach_leaves_no_link cfg (s : State E) l want have nc err :
  network.Enable cfg = true →
  activeLinks (self s) !! network.Network cfg = Some l →
  network.IPv6 cfg = None →
  network.IPv4 cfg = Some want →
  IPv4 l = Some have →
  IP_Equal E (IP have) (IP want) = false →
  fst (detached l s) = None →
  connectConfig cfg (self s) = Ok nc →
  fst (attach nc (runtimeConf (self s)) (after_detach cfg l s)) = Return err →
  configure cfg s =
    (Return err, snd (attach nc (runtimeConf (self s)) (after_detach cfg l s))) ∧
  activeLinks (self (snd (configure cfg s))) =
    delete (network.Network cfg) (activeLinks (self s)) ∧
  (network.Network cfg ∉ ListActive (self (snd (configure cfg s)))).
Proof.
  intros Hen Hl H6 H4 Hhave Hne Hdel Hnc Hatt.
  assert (Hrun : configure cfg s =
    (Return err, snd (attach nc (runtimeConf (self s)) (after_detach cfg l s)))).
  { rewrite configure_unfold. cbv zeta. rewrite Hen, Hl. cbn [negb].
    rewrite disconnect_unfold.
    unfold addressChange, addressDiffers, bind at 1, ret.
    rewrite H6, H4, Hhave, Hne. simpl.
    unfold after_detach in *.
    pose proof (detached_spec l s) as Hd.
    destruct (detached l s) as [e s1]. simpl in Hdel. subst e.
    destruct Hd as (Hself & _). simpl in *.
    rewrite connect_unfold, H6.
    assert (Hn : self (unlinked (network.Network cfg) s1) =
                 set_activeLinks (delete (network.Network cfg) (activeLinks (self s)))
                   (self s)).
    { unfold unlinked. simpl. by rewrite Hself. }
    rewrite Hn.
    change (connectConfig cfg (set_activeLinks _ (self s)))
      with (connectConfig cfg (self s)).
    change (runtimeConf (set_activeLinks _ (self s))) with (runtimeConf (self s)).
    rewrite Hnc.
    destruct (attach nc (runtimeConf (self s)) (unlinked (network.Network cfg) s1))
      as [res s2]. simpl in Hatt. subst res. reflexivity. }
  assert (Hlinks : activeLinks (self (snd (configure cfg s))) =
                   delete (network.Network cfg) (activeLinks (self s))).
  { rewrite Hrun. simpl.
    pose proof (attach_spec nc (runtimeConf (self s)) (after_detach cfg l s))
      as (adds & Ha).
    destruct (attach _ _ _) as [res s2]. cbv zeta in Ha. destruct Ha as (Hs2 & _).
    simpl. rewrite Hs2. unfold after_detach, unlinked. simpl.
    pose proof (detached_spec l s) as Hd.
    destruct (detached l s) as [e s1]. destruct Hd as (Hs1 & _). simpl.
    by rewrite Hs1. }
  split_and!; [exact Hrun|exact Hlinks|].
  rewrite elem_of_ListActive, Hlinks, lookup_delete_eq. by intros [? ?].
Qed.

End MoreSidecarFacts.

(** ** getServiceRoute *)

(** X16.  [getServiceRoute] never panics: the index [serviceRoutes[0]]
    is read only when the list has one element.  It returns a route
    exactly when [RouteGet] returned that route and no other, and an error
    in every other case: the error of [RouteGet], wrapped, or the error
    that names the number of routes found.  The handle is left as
    [RouteGet] leaves it. *)
Theorem getServiceRoute_wants_one_route {W Route : Type}
    (RouteGet : list Byte.byte → W → result (list Route) * W)
    (serviceIP : list Byte.byte) (w : W) :
  let '(got, w1) := RouteGet serviceIP w in
  let '(res, w2) := getServiceRoute RouteGet serviceIP w in
  w2 = w1 ∧
  (∀ msg, res ≠ Panic msg) ∧
  (∀ route, res = Next (Ok route) ↔ got = Ok [route]) ∧
  (∀ e, got = Err e →
     res = Next (Err (Errorf_w "failed to resolve route to service: " e))) ∧
  (∀ routes, got = Ok routes → length routes ≠ 1%nat →
     res = Next (Err (plainError
                        ("expected to get only one route to the given service, but got "
                         +:+ pretty (length routes))))).
Proof.
  unfold getServiceRoute.
  destruct (RouteGet serviceIP w) as [[routes|e] w1].
  - destruct routes as [|route [|second rest]]; simpl;
      (split_and!; [done|done|intros ?; split; congruence|done|]).
    + by intros ? [= <-] _.
    + intros ? [= <-] Hlen. done.
    + by intros ? [= <-] _.
  - split_and!; [done|done|intros ?; split; congruence| |done].
    by intros ? [= <-].
Qed.

(** ** The further statements on the scenarios *)

Lemma retry_single_attempt_witness :
  minInt < 0 ≤ 1 ∧
  events (snd (probed_retry (λ _ c, c) (λ _ _ c, c) 0 Second always_fails 0%nat)) =
    [Called (Some (errors_New "failure 0"))] ∧
  fst (retry (λ _ c, c) (λ _ _ c, c) 0 Second always_fails 0%nat) =
    Some (plainError "after 0 attempts, last error: failure 0").
Proof.
  assert (H : minInt < 0 ≤ 1) by (unfold minInt; lia).
  destruct (retry_single_attempt (λ _ c, c) (λ _ _ c, c) 0 Second always_fails 0%nat H)
    as [Hev Hret].
  split; [exact H|]. split; [exact Hev|].
  rewrite Hret. reflexivity.
Defined.

Lemma online5_as_registered : links_as_registered online5.
Proof.
  intros name l Hl. unfold online5 in Hl.
  apply lookup_singleton_Some in Hl as [_ <-]. by split.
Qed.

Lemma attach_failure_takes_three_calls_witness :
  ∃ c1 c2 c3 e3,
    new_calls (sidecar friendly ∅ refused)
      (snd (attach (E:=friendly) (ipHead +:+ "10.0.0.5/24" +:+ ipTail) (rt link5)
              (sidecar friendly ∅ refused))) = [c1; c2; c3] ∧
    call_result c1 ≠ None ∧ call_result c2 ≠ None ∧ call_result c3 = Some e3 ∧
    Errorf_w "failed to add network through cni plugin: "
      (retry_error 3 (errors_New "plugin gone")) =
      Errorf_w "failed to add network through cni plugin: " (retry_error 3 e3) ∧
    Unwrap (Errorf_w "failed to add network through cni plugin: "
              (retry_error 3 (errors_New "plugin gone"))) = Some (retry_error 3 e3) ∧
    Unwrap (retry_error 3 e3) = None ∧
    foldr Z.add 0 (attach_times [c1; c2; c3]) ≤ 26 * Second.
Proof.
  apply (attach_failure_takes_three_calls (E:=friendly)
           (ipHead +:+ "10.0.0.5/24" +:+ ipTail) (rt link5) (sidecar friendly ∅ refused)).
  - reflexivity.
  - discriminate.
Defined.

Lemma reconfigure_keeps_the_link_witness :
  configure fixed5_wide (sidecar friendly online5 []) =
    applyConfig fixed5_wide link5 (sidecar friendly online5 []) ∧
  new_calls (sidecar friendly online5 [])
    (snd (configure fixed5_wide (sidecar friendly online5 []))) = [] ∧
  self (snd (configure fixed5_wide (sidecar friendly online5 []))) =
    self (sidecar friendly online5 []).
Proof.
  apply (reconfigure_keeps_the_link fixed5_wide (sidecar friendly online5 []) link5).
  - reflexivity.
  - reflexivity.
  - split; [reflexivity|]. right. exists addr5_wide, addr5.
    split_and!; reflexivity.
Defined.

Lemma ipv6_request_on_online_link_panics_witness :
  configure wants6 (sidecar friendly online5 []) =
    (Panic "invalid memory address or nil pointer dereference",
     sidecar friendly online5 []).
Proof.
  apply (ipv6_request_on_online_link_panics wants6 (sidecar friendly online5 [])
           link5 addr6).
  - exact online5_as_registered.
  - reflexivity.
  - reflexivity.
  - reflexivity.
Defined.

Lemma nil_routes_panic_witness :
  let s := sidecar routeless ∅ [] in
  let '(res, s') := configure (config routeless true None None tt tt) s in
  res = Panic "invalid memory address or nil pointer dereference" ∧
  self s' = self s ∧
  world s' = [] ∧
  ∃ took, new_calls s s' =
            [mkCniCall (E:=routeless) (CniAdd took)
               (netHead +:+ "10.32.0.0/12" +:+ netTail)
               (runtimeConf (self s)) None (activeLinks (self s))].
Proof.
  apply (nil_routes_panic (E:=routeless) (config routeless true None None tt tt)
           (sidecar routeless ∅ []) (netHead +:+ "10.32.0.0/12" +:+ netTail)
           tt [] (Some (errors_New "no routes")) []).
  - reflexivity.
  - reflexivity.
  - reflexivity.
  - exists []. split_and!; reflexivity.
  - reflexivity.
Defined.

Lemma routes_error_is_returned_after_storing_witness :
  let s := sidecar half_routed ∅ [] in
  let '(res, s') := configure (config half_routed true None None tt tt) s in
  res = Return (Some (errors_New "route dump interrupted")) ∧
  externalRouting (self s') = <["eth1" := Some tt]> (externalRouting (self s)) ∧
  activeLinks (self s') = activeLinks (self s) ∧
  ∃ took, new_calls s s' =
            [mkCniCall (E:=half_routed) (CniAdd took)
               (netHead +:+ "10.32.0.0/12" +:+ netTail)
               (runtimeConf (self s)) None (activeLinks (self s))].
Proof.
  apply (routes_error_is_returned_after_storing (E:=half_routed)
           (config half_routed true None None tt tt)
           (sidecar half_routed ∅ []) (netHead +:+ "10.32.0.0/12" +:+ netTail)
           tt [] tt (errors_New "route dump interrupted") []).
  - reflexivity.
  - reflexivity.
  - reflexivity.
  - exists []. split_and!; reflexivity.
  - reflexivity.
Defined.

Lemma configure_keeps_links_as_registered_witness :
  links_as_registered
    (activeLinks (self (snd (configure fixed9 (sidecar friendly online5 []))))).
Proof.
  apply (configure_keeps_links_as_registered fixed9 (sidecar friendly online5 [])).
  exact online5_as_registered.
Defined.

Lemma configure_does_not_panic_witness :
  ∃ err, fst (configure fixed9 (sidecar friendly online5 failing)) = Return err.
Proof.
  apply (configure_does_not_panic fixed9 (sidecar friendly online5 failing)).
  - intros l w. discriminate.
  - intros h w. discriminate.
  - exact online5_as_registered.
  - reflexivity.
Defined.

Lemma disable_twice_witness :
  let s1 := snd (configure off (sidecar friendly online5 [])) in
  ("default" ∉ ListActive (self s1)) ∧
  configure off s1 = (Return None, s1).
Proof.
  apply (disable_twice off (sidecar friendly online5 [])).
  - reflexivity.
  - reflexivity.
Defined.

Lemma connect_then_disable_witness :
  let s := sidecar friendly ∅ [] in
  let s1 := snd (configure fixed5 s) in
  let '(res, s2) := configure off s1 in
  ("default" ∈ ListActive (self s1)) ∧
  ∃ err,
    new_calls s1 s2 =
      [mkCniCall (E:=friendly) CniDel (ipHead +:+ "10.0.0.5/24" +:+ ipTail)
         (runtimeConf (self s)) err (activeLinks (self s1))] ∧
    res = Return (Errorf_w "when 6: " <$> err) ∧
    (err = None →
     activeLinks (self s2) = activeLinks (self s) ∧
     ListActive (self s2) ≡ₚ ListActive (self s)).
Proof.
  apply (connect_then_disable fixed5 off (sidecar friendly ∅ [])
           (ipHead +:+ "10.0.0.5/24" +:+ ipTail) tt addr5 []).
  - reflexivity.
  - reflexivity.
  - reflexivity.
  - exact friendly_connects_cleanly.
  - reflexivity.
  - reflexivity.
Defined.

Lemma elsewhere_connects_cleanly :
  connects_cleanly (E:=elsewhere) (config elsewhere true (Some addr5) None tt tt)
    (sidecar elsewhere ∅ []) (ipHead +:+ "10.0.0.5/24" +:+ ipTail) tt [addr9].
Proof.
  exists [], tt, [], tt, [], [], []. split_and!; try reflexivity.
Qed.

Lemma repeated_request_witness :
  let cfg := config elsewhere true (Some addr5) None tt tt in
  let s := sidecar elsewhere ∅ [] in
  let s1 := snd (configure cfg s) in
  let s2 := snd (configure cfg s1) in
  ∃ err more,
    new_calls s1 s2 =
      mkCniCall (E:=elsewhere) CniDel (ipHead +:+ "10.0.0.5/24" +:+ ipTail)
        (runtimeConf (self s)) err (activeLinks (self s1)) :: more.
Proof.
  exact (repeated_request (E:=elsewhere) (config elsewhere true (Some addr5) None tt tt)
           (sidecar elsewhere ∅ []) (ipHead +:+ "10.0.0.5/24" +:+ ipTail) tt addr9 []
           eq_refl eq_refl eq_refl elsewhere_connects_cleanly).
Defined.

Lemma failed_reattach_leaves_no_link_witness :
  let s := sidecar friendly online5 refused in
  let failed :=
    Errorf_w "failed to add network through cni plugin: "
      (retry_error 3 (errors_New "plugin gone")) in
  configure fixed9 s =
    (Return (Some failed),
     snd (attach (E:=friendly) (ipHead +:+ "10.0.0.9/24" +:+ ipTail)
            (runtimeConf (self s)) (after_detach fixed9 link5 s))) ∧
  activeLinks (self (snd (configure fixed9 s))) = delete "default" online5 ∧
  ("default" ∉ ListActive (self (snd (configure fixed9 s)))).
Proof.
  apply (failed_reattach_leaves_no_link fixed9 (sidecar friendly online5 refused)
           link5 addr9 addr5 (ipHead +:+ "10.0.0.9/24" +:+ ipTail)); reflexivity.
Defined.

(** The other networks stay listed when one is switched off. *)
Example disable_lists_the_other_networks :
  list_to_set (C:=gset string) (ListActive (self (sidecar friendly online3 []))) =
    {["control"; "default"; "storage"]} ∧
  list_to_set (C:=gset string)
    (ListActive (self (snd (configure off (sidecar friendly online3 []))))) =
    {["control"; "storage"]}.
Proof. split; vm_compute; reflexivity. Qed.

(** [getServiceRoute] on a table with one route for 10.0.0.5, two for
    10.0.0.9 and none for any other address. *)
Example getServiceRoute_on_a_table :
  let table := [(IP addr5, ["via 10.0.0.1"]); (IP addr9, ["via 10.0.0.1"; "via 10.0.0.2"])] in
  fst (getServiceRoute (route_table table) (IP addr5) 0%nat) = Next (Ok "via 10.0.0.1") ∧
  fst (getServiceRoute (route_table table) (IP addr9) 0%nat) =
    Next (Err (errors_New "expected to get only one route to the given service, but got 2")) ∧
  (Error <$> match fst (getServiceRoute (route_table table) (IP addr6) 0%nat) with
             | Next (Err e) => Some e
             | _ => None
             end) =
    Some "failed to resolve route to service: network is unreachable".
Proof. split_and!; reflexivity. Qed.
